(** * awesome-baby-dashboard: the request handlers of [server.js]

    A shallow embedding of the Express handlers of [server.js] (the names,
    vote, wishlist, bets and offers endpoints) together with the properties
    of the vote ledger, the delete operations, the offers listing and the
    bet creation.

    Conventions of the embedding.
    - A JSON collection file is [option (list A)]: [None] is a file that is
      missing or does not parse, which [readData] and its siblings turn
      into the empty array.
    - A handler is a function from the request parts it reads and the file
      to a response and the file afterwards.
    - A JavaScript object used as a dictionary ([votedIPs], an offer) is a
      [gmap] of its own properties, with string keys.  The ledger is read
      and written with any string that a caller can make [req.ip], so its
      accesses follow the object's: a key that is not an own property
      reads what [Object.prototype] has under that name, and a string
      assigned to [__proto__] is dropped.
    - The fields of a request body that are modelled hold a string or are
      absent; values of other types are outside the model, and the
      properties of the handlers that read such fields are stated for
      bodies of that shape.
    - Strings are sequences of 8-bit characters; [length], [trim] and the
      white space of [parseInt] are those of the ASCII range, where they
      agree with [.length] and [String.prototype.trim]; a property that
      depends on them is stated for strings of that range ([is_ascii]).
    - Numbers are integers ([Z]); [NaN] is a separate constructor.  A
      JavaScript number holds the integers below 2^53 in magnitude
      exactly; a property that depends on the value of a number is stated
      for that range.
    - What the handlers call outside the file is a parameter: the protocol
      that [new URL] finds in a link, and the transcoding of an image by
      [sharp] into the uploads directory, which is a set of file names. *)

From Stdlib Require Import ZArith Ascii String DecimalString DecimalZ.
From stdpp Require Import gmap strings list fin_maps.

Local Open Scope string_scope.
Local Set Warnings "-register-all".

(** ** JavaScript values *)

(** A value read by [JSON.parse]. *)
Inductive json : Type :=
  | JNull
  | JBool (b : bool)
  | JNum (z : Z)
  | JStr (s : string)
  | JArr (l : list json)
  | JObj (l : list (string * json)).

(** The result of [parseInt]: an integer or [NaN]. *)
Inductive jsnum : Type :=
  | NaN
  | Int (z : Z).

(** [!s] is false: the string is not empty. *)
Definition truthy_str (s : string) : bool :=
  match s with
  | EmptyString => false
  | String _ _ => true
  end.

(** Truthiness of a property that holds a string or is absent. *)
Definition truthy_ostr (o : option string) : bool :=
  match o with
  | Some s => truthy_str s
  | None => false
  end.

(** [x || 0] on a counter that is a number or absent. *)
Definition or0 (x : option Z) : Z := default 0%Z x.

(** ** HTTP responses *)

Inductive Body (A : Type) : Type :=
  | BRecord (a : A)
  | BList (l : list A)
  | BError (msg : string)
  | BSuccess.
Arguments BRecord {A} a.
Arguments BList {A} l.
Arguments BError {A} msg.
Arguments BSuccess {A}.

Record Response (A : Type) : Type := mkResponse {
  status : nat;
  body : Body A
}.
Arguments mkResponse {A} status body.
Arguments status {A} r.
Arguments body {A} r.

(** ** The flat-file store *)

(** [readData], [readWishlist], [readBets], [readOffers]: the parsed array,
    or [[]] when reading or parsing throws. *)
Definition readFile {A : Type} (file : option (list A)) : list A :=
  default [] file.

(** [writeData] and its siblings replace the content of the file. *)
Definition writeFile {A : Type} (data : list A) : option (list A) :=
  Some data.

(** [x.id === id] for the records of a collection. *)
Class Identified (A : Type) := id_is : A → string → bool.

(** [list.find(x => x.id === id)] followed by assignments to the fields of
    the element found: the first match is replaced in the array. *)
Fixpoint update_first {A : Type} (p : A → bool) (f : A → A) (l : list A) : list A :=
  match l with
  | [] => []
  | x :: t => if p x then f x :: t else x :: update_first p f t
  end.

(** ** sanitize *)

(** [str.replace(/c/g, rep)] for a single character [c]. *)
Fixpoint replace_char (c : ascii) (rep : string) (s : string) : string :=
  match s with
  | EmptyString => EmptyString
  | String a t =>
      if decide (a = c) then rep ++ replace_char c rep t
      else String a (replace_char c rep t)
  end.

(** White space of the ASCII range: tab, line feed, vertical tab, form
    feed, carriage return and space. *)
Definition is_space (a : ascii) : bool :=
  let n := nat_of_ascii a in
  (Nat.leb 9 n && Nat.leb n 13) || Nat.eqb n 32.

Fixpoint trim_start (s : string) : string :=
  match s with
  | EmptyString => EmptyString
  | String a t => if is_space a then trim_start t else s
  end.

Fixpoint trim_end (s : string) : string :=
  match s with
  | EmptyString => EmptyString
  | String a t =>
      match trim_end t with
      | EmptyString => if is_space a then EmptyString else String a EmptyString
      | t' => String a t'
      end
  end.

Definition trim (s : string) : string := trim_end (trim_start s).

(** The strings of the ASCII range.  On them [trim] above is
    [String.prototype.trim], which removes further white space outside
    that range, and [String.length] is [.length], which counts UTF-16
    units. *)
Definition is_ascii (s : string) : bool :=
  forallb (fun a => Nat.ltb (nat_of_ascii a) 128) (list_ascii_of_string s).

(** A body field that is absent or a string of the ASCII range. *)
Definition is_ascii_opt (field : option string) : bool :=
  match field with
  | Some s => is_ascii s
  | None => true
  end.

(** [sanitize] on a string. *)
Definition sanitize (str : string) : string :=
  trim (replace_char ">" "&gt;" (replace_char "<" "&lt;" str)).

(** [sanitize] on a body field that holds a string or is absent
    ([undefined] is returned as it is). *)
Definition sanitize_opt (str : option string) : option string :=
  sanitize <$> str.

(** ** Names and the vote ledger *)

(** The three shapes of [votedIPs] that the handlers tell apart: falsy
    (absent), the legacy array of addresses, and the object that maps an
    address to its current choice. *)
Inductive Ledger : Type :=
  | LAbsent
  | LArray (ips : list string)
  | LObject (m : gmap string string).

Module Name.
Record t : Type := mk {
  id : string;
  name : string;
  votes : option Z;
  dislikes : option Z;
  votedIPs : Ledger
}.

Definition set_votes (v : Z) (n : t) : t :=
  mk (id n) (name n) (Some v) (dislikes n) (votedIPs n).
Definition set_dislikes (v : Z) (n : t) : t :=
  mk (id n) (name n) (votes n) (Some v) (votedIPs n).
Definition set_votedIPs (l : Ledger) (n : t) : t :=
  mk (id n) (name n) (votes n) (dislikes n) l.
End Name.

#[export] Instance Name_identified : Identified Name.t :=
  fun n i => bool_decide (Name.id n = i).

(** [req.ip || 'unknown'] *)
Definition clientIP (ip : option string) : string :=
  if truthy_ostr ip then default "unknown" ip else "unknown".

(** What [obj[key]] reads on a ledger object. *)
Inductive property : Type :=
  | Undefined
  | Own (s : string)
  | Inherited.

(** The names under which [Object.prototype] has a property: its methods,
    and the accessor [__proto__]. *)
Definition prototype_keys : list string :=
  [ "__proto__"; "constructor"; "hasOwnProperty"; "isPrototypeOf";
    "propertyIsEnumerable"; "toLocaleString"; "toString"; "valueOf";
    "__defineGetter__"; "__defineSetter__"; "__lookupGetter__";
    "__lookupSetter__" ].

(** [obj[key]] on an object whose own properties are [m]: the own
    property, else what the prototype has (a function, or for [__proto__]
    the prototype itself), else [undefined]. *)
Definition js_get (m : gmap string string) (key : string) : property :=
  match m !! key with
  | Some s => Own s
  | None => if bool_decide (key ∈ prototype_keys) then Inherited else Undefined
  end.

(** [obj[key] = value] with a string [value]: an own property is written
    or created, except that on an object without an own [__proto__] the
    assignment to that key reaches the setter of the prototype, which
    ignores a string. *)
Definition js_set (key value : string) (m : gmap string string)
    : gmap string string :=
  if bool_decide (key = "__proto__") && bool_decide (m !! key = None) then m
  else <[key := value]> m.

Definition truthy_property (p : property) : bool :=
  match p with
  | Undefined => false
  | Own s => truthy_str s
  | Inherited => true
  end.

(** [p === choice] for a string [choice]. *)
Definition is_choice (choice : string) (p : property) : bool :=
  match p with
  | Own s => bool_decide (s = choice)
  | _ => false
  end.

(** The backward-compatibility block of the vote handler: an array becomes
    the object built by [forEach], a falsy ledger becomes [{}], an object
    is kept. *)
Definition legacyMap (ips : list string) : gmap string string :=
  foldl (fun m ip => js_set ip "up" m) ∅ ips.

Definition convert (l : Ledger) : gmap string string :=
  match l with
  | LArray ips => legacyMap ips
  | LAbsent => ∅
  | LObject m => m
  end.

(** "If IP is known, adjust totals by removing the old vote". *)
Definition removeOld (ip : string) (previousVote : property) (n : Name.t) : Name.t :=
  if bool_decide (ip ≠ "unknown") && truthy_property previousVote then
    let n1 :=
      if is_choice "up" previousVote
      then Name.set_votes (Z.max 0 (or0 (Name.votes n) - 1)) n else n in
    if is_choice "down" previousVote
    then Name.set_dislikes (Z.max 0 (or0 (Name.dislikes n1) - 1)) n1 else n1
  else n.

(** "Apply the new vote", on a record whose ledger is the object [m]. *)
Definition applyNew (ip type : string) (m : gmap string string) (n : Name.t) : Name.t :=
  if bool_decide (type = "none") then
    Name.set_votedIPs (LObject (delete ip m)) n
  else
    let n1 :=
      if bool_decide (type = "up")
      then Name.set_votes (or0 (Name.votes n) + 1) n else n in
    let n2 :=
      if bool_decide (type = "down")
      then Name.set_dislikes (or0 (Name.dislikes n1) + 1) n1 else n1 in
    Name.set_votedIPs (LObject (js_set ip type m)) n2.

(** The body of the vote handler once the record is found: conversion of
    the ledger, removal of the old vote, application of the new one. *)
Definition applyVote (ip type : string) (n : Name.t) : Name.t :=
  let m := convert (Name.votedIPs n) in
  let previousVote := js_get m ip in
  applyNew ip type m (removeOld ip previousVote (Name.set_votedIPs (LObject m) n)).

(** The adjustment of [removeOld] read on the own entry of the voter: what
    the prototype has under a name is truthy but is neither "up" nor
    "down", so that it adjusts nothing (lemma [removeOld_js_get]). *)
Definition removeOwn (ip : string) (entry : option string) (n : Name.t) : Name.t :=
  if bool_decide (ip ≠ "unknown") && truthy_ostr entry then
    let n1 :=
      if bool_decide (entry = Some "up")
      then Name.set_votes (Z.max 0 (or0 (Name.votes n) - 1)) n else n in
    if bool_decide (entry = Some "down")
    then Name.set_dislikes (Z.max 0 (or0 (Name.dislikes n1) - 1)) n1 else n1
  else n.

Definition valid_type (type : option string) : bool :=
  bool_decide (type = Some "up") || bool_decide (type = Some "down")
  || bool_decide (type = Some "none").

(** [app.post('/api/vote')], current version. *)
Definition post_vote (b_id b_type : option string) (req_ip : option string)
    (file : option (list Name.t)) : Response Name.t * option (list Name.t) :=
  if negb (truthy_ostr b_id) || negb (valid_type b_type) then
    (mkResponse 400 (BError "Invalid ID or type"), file)
  else
    let id := default EmptyString b_id in
    let type := default EmptyString b_type in
    let ip := clientIP req_ip in
    let names := readFile file in
    match find (fun n => id_is n id) names with
    | None => (mkResponse 404 (BError "Name not found"), file)
    | Some name =>
        (mkResponse 200 (BRecord (applyVote ip type name)),
         writeFile (update_first (fun n => id_is n id) (applyVote ip type) names))
    end.

(** [app.post('/api/names')]; [now] is [Date.now().toString()]. *)
Definition newName (now name : string) : Name.t :=
  Name.mk now name (Some 0%Z) (Some 0%Z) (LArray []).

Definition post_names (now : string) (b_name : option string)
    (file : option (list Name.t)) : Response Name.t * option (list Name.t) :=
  if negb (truthy_ostr b_name) then
    (mkResponse 400 (BError "Name required"), file)
  else
    let name := default EmptyString b_name in
    if Nat.ltb 50 (String.length name) then
      (mkResponse 400 (BError "Name too long (max 50 chars)"), file)
    else
      let newName := newName now (sanitize name) in
      (mkResponse 201 (BRecord newName), writeFile (readFile file ++ [newName])).

(** [app.post('/api/vote')], legacy version: the ledger is an array of the
    addresses that have voted.  [cf_ip] is the header [cf-connecting-ip].
    On a ledger that is an object, [includes] (or [push]) is not a
    function: the handler throws before it writes, and Express answers
    500. *)
Module Legacy.
Definition clientIP (cf_ip req_ip : option string) : string :=
  if truthy_ostr cf_ip then default "unknown" cf_ip
  else if truthy_ostr req_ip then default "unknown" req_ip
  else "unknown".

Definition count_vote (type : option string) (n : Name.t) : Name.t :=
  if bool_decide (type = Some "down")
  then Name.set_dislikes (or0 (Name.dislikes n) + 1) n
  else Name.set_votes (or0 (Name.votes n) + 1) n.

Definition post_vote (b_id b_type : option string) (cf_ip req_ip : option string)
    (file : option (list Name.t)) : Response Name.t * option (list Name.t) :=
  if negb (truthy_ostr b_id) then
    (mkResponse 400 (BError "ID required"), file)
  else
    let id := default EmptyString b_id in
    let ip := clientIP cf_ip req_ip in
    let names := readFile file in
    match find (fun n => id_is n id) names with
    | None => (mkResponse 404 (BError "Name not found"), file)
    | Some name =>
        match Name.votedIPs name with
        | LObject _ => (mkResponse 500 (BError "TypeError"), file)
        | l =>
            let ips := match l with LArray ips => ips | _ => [] end in
            if bool_decide (ip ≠ "unknown") && bool_decide (ip ∈ ips) then
              (mkResponse 403 (BError "You have already voted for this name."), file)
            else
              let vote n :=
                Name.set_votedIPs (LArray (ips ++ [ip])) (count_vote b_type n) in
              (mkResponse 200 (BRecord (vote name)),
               writeFile (update_first (fun n => id_is n id) vote names))
        end
    end.
End Legacy.

(** ** Wishlist *)

Module Wish.
Record t : Type := mk {
  id : string;
  name : string;
  link : string;
  price : string;
  note : string;
  reserved : bool;
  reservedBy : option string;
  date : string
}.
End Wish.

#[export] Instance Wish_identified : Identified Wish.t :=
  fun w i => bool_decide (Wish.id w = i).

(** ** Bets *)

Module Bet.
Record t : Type := mk {
  id : string;
  name : string;
  date : string;
  time : string;
  weight : jsnum;
  size : jsnum;
  timestamp : string
}.
End Bet.

#[export] Instance Bet_identified : Identified Bet.t :=
  fun b i => bool_decide (Bet.id b = i).

(** Truthiness of a value of the request body. *)
Definition truthy (v : json) : bool :=
  match v with
  | JNull => false
  | JBool b => b
  | JNum z => negb (Z.eqb z 0)
  | JStr s => truthy_str s
  | JArr _ => true
  | JObj _ => true
  end.

Definition truthy_opt (v : option json) : bool :=
  match v with
  | Some v => truthy v
  | None => false
  end.

(** Decimal numeral of an integer. *)
Definition string_of_Z (z : Z) : string :=
  DecimalString.NilZero.string_of_int (Z.to_int z).

Fixpoint join (sep : string) (l : list string) : string :=
  match l with
  | [] => EmptyString
  | [s] => s
  | s :: t => s ++ sep ++ join sep t
  end.

(** [ToString], as [parseInt] applies it to its argument.  An array is
    joined with commas, its [null] elements printed as the empty string. *)
Fixpoint toString (v : json) : string :=
  match v with
  | JNull => "null"
  | JBool true => "true"
  | JBool false => "false"
  | JNum z => string_of_Z z
  | JStr s => s
  | JArr l =>
      join "," (map (fun e => match e with JNull => EmptyString | _ => toString e end) l)
  | JObj _ => "[object Object]"
  end.

(** The value of a character as a digit in radix [R], when it is one. *)
Definition digit_of (R : Z) (a : ascii) : option Z :=
  let n := Z.of_nat (nat_of_ascii a) in
  let d :=
    if (48 <=? n)%Z && (n <=? 57)%Z then Some (n - 48)%Z
    else if (97 <=? n)%Z && (n <=? 122)%Z then Some (n - 87)%Z
    else if (65 <=? n)%Z && (n <=? 90)%Z then Some (n - 55)%Z
    else None in
  match d with
  | Some v => if (v <? R)%Z then Some v else None
  | None => None
  end.

(** The value of the longest prefix of digits; [None] when it is empty. *)
Fixpoint digits (R : Z) (s : string) (acc : option Z) : option Z :=
  match s with
  | EmptyString => acc
  | String a t =>
      match digit_of R a with
      | Some d => digits R t (Some (or0 acc * R + d)%Z)
      | None => acc
      end
  end.

(** [parseInt(string)] without a radix: leading white space, a sign, the
    prefix [0x] or [0X] for radix 16, then digits up to the first
    character that is not one. *)
Definition parseInt_string (s : string) : jsnum :=
  let S := trim_start s in
  let '(sign, S1) :=
    match S with
    | String "-" t => ((-1)%Z, t)
    | String "+" t => (1%Z, t)
    | _ => (1%Z, S)
    end in
  let '(R, S2) :=
    match S1 with
    | String "0" (String "x" t) => (16%Z, t)
    | String "0" (String "X" t) => (16%Z, t)
    | _ => (10%Z, S1)
    end in
  match digits R S2 None with
  | Some v => Int (sign * v)
  | None => NaN
  end.

Definition parseInt (v : json) : jsnum := parseInt_string (toString v).

(** [Number.isInteger] *)
Definition isInteger (n : jsnum) : bool :=
  match n with
  | Int _ => true
  | NaN => false
  end.

(** The body of [POST /api/bets]. *)
Record BetBody : Type := mkBetBody {
  b_name : option string;
  b_date : option string;
  b_time : option string;
  b_weight : option json;
  b_size : option json
}.

(** [app.post('/api/bets')]; [now] is [Date.now().toString()] and [iso] is
    [new Date().toISOString()]. *)
Definition post_bets (now iso : string) (b : BetBody)
    (file : option (list Bet.t)) : Response Bet.t * option (list Bet.t) :=
  if negb (truthy_ostr (b_name b)) || negb (truthy_ostr (b_date b))
     || negb (truthy_opt (b_weight b)) || negb (truthy_opt (b_size b)) then
    (mkResponse 400 (BError "Missing fields"), file)
  else
    let name := default EmptyString (b_name b) in
    let date := default EmptyString (b_date b) in
    if Nat.ltb 50 (String.length name) then
      (mkResponse 400 (BError "Name too long (max 50 chars)"), file)
    else
      let time := sanitize_opt (b_time b) in
      let newBet :=
        Bet.mk now (sanitize name) (sanitize date)
          (if truthy_ostr time then default EmptyString time else "12:00")
          (parseInt (default JNull (b_weight b)))
          (parseInt (default JNull (b_size b)))
          iso in
      (mkResponse 201 (BRecord newBet), writeFile (readFile file ++ [newBet])).

(** ** Offers *)

(** [str.replace(pat, rep)] with a string pattern: the first occurrence. *)
Fixpoint replace_first (pat rep : string) (s : string) : string :=
  match s with
  | EmptyString => if String.prefix pat s then rep else EmptyString
  | String a t =>
      if String.prefix pat s
      then rep ++ String.substring (String.length pat) (String.length s - String.length pat) s
      else String a (replace_first pat rep t)
  end.

(** An object of the offers file, and an object in memory, a property of
    which may hold [undefined] ([None]). *)
Abbreviation Offer := (gmap string json).
Abbreviation JsObject := (gmap string (option json)).

(** The object that [JSON.parse] builds. *)
Definition parsed (o : Offer) : JsObject := Some <$> o.

(** [JSON.stringify] of an object: a property that holds [undefined] is
    left out. *)
Definition stringify (o : JsObject) : Offer := omap (fun v => v) o.

#[export] Instance Offer_identified : Identified JsObject :=
  fun o i =>
    match o !! "id" with
    | Some (Some (JStr s)) => bool_decide (s = i)
    | _ => false
    end.

Definition readOffers (file : option (list Offer)) : list JsObject :=
  parsed <$> readFile file.

Definition writeOffers (data : list JsObject) : option (list Offer) :=
  writeFile (stringify <$> data).

Section Handlers.

(** [process.env.ADMIN_PIN || '2026'] *)
Variable ADMIN_PIN : string.

(** [pin === ADMIN_PIN] on the header [x-admin-pin]. *)
Definition authorized (pin : option string) : bool :=
  bool_decide (pin = Some ADMIN_PIN).

(** [app.delete('/api/names/:id')] *)
Definition delete_names (pin : option string) (id : string)
    (file : option (list Name.t)) : Response Name.t * option (list Name.t) :=
  if negb (authorized pin) then
    (mkResponse 401 (BError "Unauthorized"), file)
  else
    let names := List.filter (fun n => negb (id_is n id)) (readFile file) in
    (mkResponse 200 BSuccess, writeFile names).

(** [app.delete('/api/wishlist/:id')] *)
Definition delete_wishlist (pin : option string) (id : string)
    (file : option (list Wish.t)) : Response Wish.t * option (list Wish.t) :=
  if negb (authorized pin) then
    (mkResponse 401 (BError "Unauthorized"), file)
  else
    let list := readFile file in
    let initialLength := length list in
    let list := List.filter (fun i => negb (id_is i id)) list in
    if Nat.eqb (length list) initialLength then
      (mkResponse 404 (BError "Not found"), file)
    else
      (mkResponse 200 BSuccess, writeFile list).

(** [app.delete('/api/bets/:id')] *)
Definition delete_bets (pin : option string) (id : string)
    (file : option (list Bet.t)) : Response Bet.t * option (list Bet.t) :=
  if negb (authorized pin) then
    (mkResponse 401 (BError "Unauthorized"), file)
  else
    let list := readFile file in
    let initialLength := length list in
    let list := List.filter (fun b => negb (id_is b id)) list in
    if Nat.eqb (length list) initialLength then
      (mkResponse 404 (BError "Not found"), file)
    else
      (mkResponse 200 BSuccess, writeFile list).

(** The image file of an offer is unlinked when it exists; an offer
    without a string [imageUrl] makes [replace] throw, which is caught.
    [uploads] is the set of file names of the uploads directory. *)
Definition unlink_image (item : JsObject) (uploads : gset string) : gset string :=
  match item !! "imageUrl" with
  | Some (Some (JStr url)) => uploads ∖ {[ replace_first "/uploads/" EmptyString url ]}
  | _ => uploads
  end.

(** [app.delete('/api/offers/:id')] *)
Definition delete_offers (pin : option string) (id : string)
    (file : option (list Offer)) (uploads : gset string)
    : Response Offer * option (list Offer) * gset string :=
  if negb (authorized pin) then
    (mkResponse 401 (BError "Unauthorized"), file, uploads)
  else
    let list := readOffers file in
    match find (fun o => id_is o id) list with
    | None => (mkResponse 404 (BError "Not found"), file, uploads)
    | Some item =>
        (mkResponse 200 BSuccess,
         writeOffers (List.filter (fun o => negb (id_is o id)) list),
         unlink_image item uploads)
    end.

(** [app.get('/api/offers')]: the body is what [res.json] emits. *)
Definition get_offers (pin : option string) (file : option (list Offer))
    : Response Offer :=
  let offers := readOffers file in
  if authorized pin then
    mkResponse 200 (BList (stringify <$> offers))
  else
    let publicOffers := (fun o => <["email" := None]> o) <$> offers in
    mkResponse 200 (BList (stringify <$> publicOffers)).

End Handlers.

(** ** The vote ledger as the specification words it *)

(** Decrement, floored at 0, of the aggregate counter that matches a
    recorded choice; a choice that is neither direction matches none. *)
Definition decrement_matching (choice : string) (n : Name.t) : Name.t :=
  if bool_decide (choice = "up") then
    Name.set_votes (Z.max 0 (or0 (Name.votes n) - 1)) n
  else if bool_decide (choice = "down") then
    Name.set_dislikes (Z.max 0 (or0 (Name.dislikes n) - 1)) n
  else n.

Definition increment_matching (choice : string) (n : Name.t) : Name.t :=
  if bool_decide (choice = "up") then
    Name.set_votes (or0 (Name.votes n) + 1) n
  else if bool_decide (choice = "down") then
    Name.set_dislikes (or0 (Name.dislikes n) + 1) n
  else n.

(** Steps 3 to 5 of the algorithm of the vote ledger, on a record whose
    ledger is the mapping [votedBy]. *)
Definition applyVote_spec (voterIdentity choice : string)
    (votedBy : gmap string string) (n : Name.t) : Name.t :=
  let n1 :=
    match votedBy !! voterIdentity with
    | Some previous =>
        if bool_decide (voterIdentity = "unknown") then n
        else decrement_matching previous n
    | None => n
    end in
  if bool_decide (choice = "none") then
    Name.set_votedIPs (LObject (delete voterIdentity votedBy)) n1
  else
    Name.set_votedIPs (LObject (<[voterIdentity := choice]> votedBy))
      (increment_matching choice n1).

(** ** The tally invariant *)

(** The number of voter identities that the ledger maps to [choice]. *)
Definition tally (choice : string) (m : gmap string string) : Z :=
  Z.of_nat (size (filter (fun kv => kv.2 = choice) m)).

Definition tally_ok (n : Name.t) : Prop :=
  Name.votes n = Some (tally "up" (convert (Name.votedIPs n)))
  ∧ Name.dislikes n = Some (tally "down" (convert (Name.votedIPs n))).

(** The records that a sequence of accepted votes produces from a record
    just created, the voter identities taken among those that satisfy
    [allowed]. *)
Inductive reachable (allowed : string → Prop) : Name.t → Prop :=
  | reach_new now name :
      reachable allowed (newName now name)
  | reach_vote n ip type :
      reachable allowed n →
      allowed ip →
      valid_type (Some type) = true →
      reachable allowed (applyVote ip type n).

(** [k] successive votes of one type from one caller on the record [id]. *)
Fixpoint repeat_vote (k : nat) (id type : string) (req_ip : option string)
    (file : option (list Name.t)) : option (list Name.t) :=
  match k with
  | O => file
  | S k' => (post_vote (Some id) (Some type) req_ip (repeat_vote k' id type req_ip file)).2
  end.

(** ** Listings *)

(** [app.get('/api/names')], [app.get('/api/wishlist')] and
    [app.get('/api/bets')]. *)
Definition get_names (file : option (list Name.t)) : Response Name.t :=
  mkResponse 200 (BList (readFile file)).

Definition get_wishlist (file : option (list Wish.t)) : Response Wish.t :=
  mkResponse 200 (BList (readFile file)).

Definition get_bets (file : option (list Bet.t)) : Response Bet.t :=
  mkResponse 200 (BList (readFile file)).

(** ** Reservation of a wishlist item *)

Definition toggle (reservedBy : option string) (item : Wish.t) : Wish.t :=
  let reserved := negb (Wish.reserved item) in
  Wish.mk (Wish.id item) (Wish.name item) (Wish.link item) (Wish.price item)
    (Wish.note item) reserved
    (if reserved
     then Some (if truthy_ostr reservedBy then default EmptyString reservedBy
                else "Anonymous")
     else None)
    (Wish.date item).

(** [app.post('/api/wishlist/reserve')] *)
Definition post_reserve (b_id b_reservedBy : option string)
    (file : option (list Wish.t)) : Response Wish.t * option (list Wish.t) :=
  if negb (truthy_ostr b_id) then
    (mkResponse 400 (BError "ID required"), file)
  else
    let id := default EmptyString b_id in
    let reservedBy := sanitize_opt b_reservedBy in
    let list := readFile file in
    match find (fun i => id_is i id) list with
    | Some item =>
        (mkResponse 200 (BRecord (toggle reservedBy item)),
         writeFile (update_first (fun i => id_is i id) (toggle reservedBy) list))
    | None => (mkResponse 404 (BError "Not found"), file)
    end.

(** ** Data URLs *)

(** The class [[A-Za-z-+\/]] of the pattern of [POST /api/offers]. *)
Definition is_mime_char (a : ascii) : bool :=
  let n := nat_of_ascii a in
  (Nat.leb 65 n && Nat.leb n 90) || (Nat.leb 97 n && Nat.leb n 122)
  || Nat.eqb n 45 || Nat.eqb n 43 || Nat.eqb n 47.

(** The longest prefix made of characters of the class, and the rest. *)
Fixpoint span_mime (s : string) : string * string :=
  match s with
  | EmptyString => (EmptyString, EmptyString)
  | String a t =>
      if is_mime_char a
      then let '(m, r) := span_mime t in (String a m, r)
      else (EmptyString, s)
  end.

Fixpoint strip_prefix (p s : string) : option string :=
  match p, s with
  | EmptyString, _ => Some s
  | String a p', String b s' => if decide (a = b) then strip_prefix p' s' else None
  | String _ _, EmptyString => None
  end.

(** [.] matches any character but a line terminator (line feed and
    carriage return in the ASCII range). *)
Fixpoint no_line_terminator (s : string) : bool :=
  match s with
  | EmptyString => true
  | String a t =>
      negb (Nat.eqb (nat_of_ascii a) 10) && negb (Nat.eqb (nat_of_ascii a) 13)
      && no_line_terminator t
  end.

(** [imageBase64.match(/^data:([A-Za-z-+\/]+);base64,(.+)$/)]: the two
    groups when the string matches.  The class does not hold [;], so the
    first group is the longest run of its characters after [data:]. *)
Definition match_data_url (s : string) : option (string * string) :=
  match strip_prefix "data:" s with
  | None => None
  | Some rest =>
      let '(mime, rest') := span_mime rest in
      if negb (truthy_str mime) then None
      else
        match strip_prefix ";base64," rest' with
        | None => None
        | Some payload =>
            if truthy_str payload && no_line_terminator payload
            then Some (mime, payload)
            else None
        end
  end.

(** The bodies of [POST /api/wishlist] and [POST /api/offers]. *)
Record WishBody : Type := mkWishBody {
  w_name : option string;
  w_link : option string;
  w_price : option string;
  w_note : option string
}.

Record OfferBody : Type := mkOfferBody {
  o_name : option string;
  o_email : option string;
  o_description : option string;
  o_imageBase64 : option string
}.

Section Creation.

Variable ADMIN_PIN : string.

(** [new URL(link).protocol], [None] when the constructor throws. *)
Variable url_protocol : string → option string.

(** [sharp(Buffer.from(payload, 'base64')).resize(..).jpeg(..).toFile(..)]
    on the payload, the file name and the uploads directory: whether the
    promise is fulfilled, and the directory afterwards. *)
Variable toFile : string → string → gset string → bool * gset string.

(** [app.get('/api/verify-pin')] *)
Definition verify_pin (pin : option string) : Response unit :=
  if authorized ADMIN_PIN pin then mkResponse 200 BSuccess
  else mkResponse 401 (BError "Unauthorized").

(** [app.post('/api/wishlist')] *)
Definition post_wishlist (now iso : string) (pin : option string) (b : WishBody)
    (file : option (list Wish.t)) : Response Wish.t * option (list Wish.t) :=
  if negb (authorized ADMIN_PIN pin) then
    (mkResponse 401 (BError "Unauthorized"), file)
  else if negb (truthy_ostr (w_name b)) || negb (truthy_ostr (w_link b)) then
    (mkResponse 400 (BError "Name and Link required"), file)
  else
    let name := default EmptyString (w_name b) in
    let link := default EmptyString (w_link b) in
    if Nat.ltb 200 (String.length name) then
      (mkResponse 400 (BError "Name too long (max 200 chars)"), file)
    else if truthy_ostr (w_price b)
            && Nat.ltb 50 (String.length (default EmptyString (w_price b))) then
      (mkResponse 400 (BError "Price too long (max 50 chars)"), file)
    else if truthy_ostr (w_note b)
            && Nat.ltb 500 (String.length (default EmptyString (w_note b))) then
      (mkResponse 400 (BError "Note too long (max 500 chars)"), file)
    else
      match url_protocol link with
      | None => (mkResponse 400 (BError "Invalid link format."), file)
      | Some protocol =>
          if bool_decide (protocol ≠ "http:") && bool_decide (protocol ≠ "https:") then
            (mkResponse 400
               (BError "Invalid link protocol. Only http and https are allowed."),
             file)
          else
            let price := sanitize_opt (w_price b) in
            let note := sanitize_opt (w_note b) in
            let newItem :=
              Wish.mk now (sanitize name) (sanitize link)
                (if truthy_ostr price then default EmptyString price else EmptyString)
                (if truthy_ostr note then default EmptyString note else EmptyString)
                false None iso in
            (mkResponse 201 (BRecord newItem), writeFile (readFile file ++ [newItem]))
      end.

(** [app.post('/api/offers')], current version.  The body of the answer
    and the file hold what [JSON.stringify] emits. *)
Definition post_offers (now iso : string) (b : OfferBody)
    (file : option (list Offer)) (uploads : gset string)
    : Response Offer * option (list Offer) * gset string :=
  if negb (truthy_ostr (o_name b)) || negb (truthy_ostr (o_description b))
     || negb (truthy_ostr (o_imageBase64 b)) then
    (mkResponse 400 (BError "Missing fields"), file, uploads)
  else
    let name := default EmptyString (o_name b) in
    let description := default EmptyString (o_description b) in
    let imageBase64 := default EmptyString (o_imageBase64 b) in
    if Nat.ltb 50 (String.length name) then
      (mkResponse 400 (BError "Name too long (max 50 chars)"), file, uploads)
    else if Nat.ltb 1000 (String.length description) then
      (mkResponse 400 (BError "Description too long (max 1000 chars)"), file, uploads)
    else
      match match_data_url imageBase64 with
      | Some (_, payload) =>
          let filename := now ++ ".jpg" in
          let '(fulfilled, uploads') := toFile payload filename uploads in
          if fulfilled then
            let newOffer : JsObject :=
              {[ "id" := Some (JStr now);
                 "name" := Some (JStr (sanitize name));
                 "email" := JStr <$> sanitize_opt (o_email b);
                 "description" := Some (JStr (sanitize description));
                 "imageUrl" := Some (JStr ("/uploads/" ++ filename));
                 "timestamp" := Some (JStr iso) ]} in
            (mkResponse 201 (BRecord (stringify newOffer)),
             writeOffers (readOffers file ++ [newOffer]),
             uploads')
          else
            (mkResponse 400 (BError "Invalid image data"), file, uploads')
      | None =>
          (mkResponse 400 (BError "Invalid image format"), file, uploads)
      end.

End Creation.

(** ** Occurrences of a character *)

Fixpoint occurs (c : ascii) (s : string) : bool :=
  match s with
  | EmptyString => false
  | String a t => bool_decide (a = c) || occurs c t
  end.

(** ** Decimal numerals *)

(** The integer that the digits of [d] denote after the digits that gave
    [acc]. *)
Fixpoint uint_value (d : Decimal.uint) (acc : Z) : Z :=
  match d with
  | Decimal.Nil => acc
  | Decimal.D0 l => uint_value l (acc * 10 + 0)
  | Decimal.D1 l => uint_value l (acc * 10 + 1)
  | Decimal.D2 l => uint_value l (acc * 10 + 2)
  | Decimal.D3 l => uint_value l (acc * 10 + 3)
  | Decimal.D4 l => uint_value l (acc * 10 + 4)
  | Decimal.D5 l => uint_value l (acc * 10 + 5)
  | Decimal.D6 l => uint_value l (acc * 10 + 6)
  | Decimal.D7 l => uint_value l (acc * 10 + 7)
  | Decimal.D8 l => uint_value l (acc * 10 + 8)
  | Decimal.D9 l => uint_value l (acc * 10 + 9)
  end.

(** Every character of the string is of the class of [is_mime_char]. *)
Fixpoint all_mime (s : string) : bool :=
  match s with
  | EmptyString => true
  | String a t => is_mime_char a && all_mime t
  end.

(** ** Sample data *)

(** A record in mapping form on which one address has voted up. *)
Definition mia_up : Name.t :=
  Name.mk "1" "Mia" (Some 1%Z) (Some 0%Z) (LObject {[ "203.0.113.1" := "up" ]}).

(** A record in mapping form on which nobody has voted. *)
Definition mia_clear : Name.t :=
  Name.mk "1" "Mia" (Some 0%Z) (Some 0%Z) (LObject ∅).

(** A wishlist item that is not reserved, a bet, and a stored offer with
    its image. *)
Definition crib : Wish.t :=
  Wish.mk "10" "Crib" "https://example.com/crib" "120" EmptyString false None
    "2026-01-01T00:00:00.000Z".

Definition guess : Bet.t :=
  Bet.mk "20" "Tester" "2026-08-20" "12:00" (Int 3500) (Int 50)
    "2026-01-01T00:00:00.000Z".

Definition pram : gmap string json :=
  {[ "id" := JStr "30"; "name" := JStr "Tester"; "email" := JStr "test@example.com";
     "description" := JStr "Pram"; "imageUrl" := JStr "/uploads/30.jpg" ]}.

(** ** Lists, files and the first match *)

Section FirstMatch.
Context {A : Type} (p : A → bool).

Lemma find_readFile (file : option (list A)) (r : A) :
  find p (readFile file) = Some r → file = Some (readFile file).
Proof. destruct file as [l|]; [reflexivity | discriminate]. Qed.

Lemma update_first_found (f : A → A) (l : list A) (r : A) :
  find p l = Some r → update_first p f l = update_first p (fun _ => f r) l.
Proof.
  induction l as [|x t IH]; simpl; [discriminate|].
  destruct (p x); [congruence|].
  intros H. f_equal. auto.
Qed.

Lemma update_first_fixed (f : A → A) (l : list A) (r : A) :
  find p l = Some r → f r = r → update_first p f l = l.
Proof.
  induction l as [|x t IH]; simpl; [discriminate|].
  destruct (p x).
  - intros [= ->] ->. reflexivity.
  - intros H1 H2. f_equal. auto.
Qed.

Lemma find_update_first (f : A → A) (l : list A) (r : A) :
  find p l = Some r → p (f r) = true → find p (update_first p f l) = Some (f r).
Proof.
  induction l as [|x t IH]; simpl; [discriminate|].
  destruct (p x) eqn:Hx.
  - intros [= ->] Hf. simpl. rewrite Hf. reflexivity.
  - intros H1 H2. simpl. rewrite Hx. auto.
Qed.

Lemma filter_absent (l : list A) :
  find p l = None → List.filter (fun x => negb (p x)) l = l.
Proof.
  induction l as [|x t IH]; simpl; [reflexivity|].
  destruct (p x); [discriminate|].
  intros H. simpl. f_equal. auto.
Qed.
End FirstMatch.

(** ** The vote handler on a record that exists *)

Lemma post_vote_found (id type : string) (req_ip : option string)
    (file : option (list Name.t)) (r : Name.t) :
  truthy_str id = true →
  valid_type (Some type) = true →
  find (fun n => id_is n id) (readFile file) = Some r →
  post_vote (Some id) (Some type) req_ip file =
    (mkResponse 200 (BRecord (applyVote (clientIP req_ip) type r)),
     writeFile (update_first (fun n => id_is n id)
                  (applyVote (clientIP req_ip) type) (readFile file))).
Proof.
  intros Hid Hty Hfind. unfold post_vote. simpl.
  rewrite Hid, Hty. simpl. rewrite Hfind. reflexivity.
Qed.

Lemma applyVote_id (ip type : string) (n : Name.t) :
  Name.id (applyVote ip type n) = Name.id n.
Proof.
  unfold applyVote, applyNew, removeOld.
  repeat case_bool_decide; repeat (destruct (_ && _));
    repeat (destruct (is_choice _ _)); reflexivity.
Qed.

Lemma valid_type_cases (type : string) :
  valid_type (Some type) = true → type = "up" ∨ type = "down" ∨ type = "none".
Proof.
  unfold valid_type. rewrite !orb_true_iff, !bool_decide_eq_true.
  intros [[H|H]|H]; injection H; auto.
Qed.

(** ** Counting the entries of a ledger *)

Section Tally.
Implicit Types (m : gmap string string) (k c v : string).

Lemma tally_nonneg c m : (0 ≤ tally c m)%Z.
Proof. unfold tally. lia. Qed.

Lemma tally_empty c : tally c ∅ = 0%Z.
Proof. unfold tally. rewrite map_filter_empty, map_size_empty. reflexivity. Qed.

Lemma tally_delete c m k :
  tally c (delete k m) =
    (tally c m - if bool_decide (m !! k = Some c) then 1 else 0)%Z.
Proof.
  unfold tally. rewrite map_filter_delete, map_size_delete.
  case_bool_decide as Hk.
  - assert (Hf : filter (fun kv : string * string => kv.2 = c) m !! k = Some c)
      by (apply map_lookup_filter_Some; auto).
    rewrite Hf.
    assert (size (filter (fun kv : string * string => kv.2 = c) m) ≠ 0%nat).
    { intros Hz. apply map_size_empty_inv in Hz. rewrite Hz in Hf. discriminate. }
    lia.
  - destruct (filter _ m !! k) as [y|] eqn:Hf; simpl; [|lia].
    apply map_lookup_filter_Some in Hf as [Hm Hy]. simpl in Hy. congruence.
Qed.

Lemma tally_insert c m k v :
  tally c (<[k := v]> m) =
    (tally c (delete k m) + if bool_decide (v = c) then 1 else 0)%Z.
Proof.
  rewrite <- (insert_delete_eq m k v).
  unfold tally at 1. rewrite map_filter_insert. simpl.
  case_bool_decide as Hv.
  - rewrite decide_True by assumption.
    rewrite map_size_insert_None.
    + unfold tally. lia.
    + apply map_lookup_filter_None. left. apply lookup_delete_eq.
  - rewrite decide_False by assumption.
    rewrite !delete_delete_eq. unfold tally. lia.
Qed.

Lemma tally_present c m k : m !! k = Some c → (1 ≤ tally c m)%Z.
Proof.
  intros Hk. pose proof (tally_delete c m k) as Hd.
  rewrite bool_decide_eq_true_2 in Hd by assumption.
  pose proof (tally_nonneg c (delete k m)). lia.
Qed.
End Tally.

(** ** One vote on a record in mapping form *)

(** Settles the tests of the handler on literals. *)
Ltac decide_literals :=
  repeat (case_bool_decide; try congruence; try discriminate).

(** Accesses to the ledger object. *)
Lemma js_set_other (key value : string) (m : gmap string string) :
  key ≠ "__proto__" → js_set key value m = <[key := value]> m.
Proof.
  intros Hk. unfold js_set. rewrite (bool_decide_eq_false_2 _ Hk). reflexivity.
Qed.

Lemma js_set_own (key value s : string) (m : gmap string string) :
  m !! key = Some s → js_set key value m = <[key := value]> m.
Proof.
  intros Hk. unfold js_set.
  rewrite (bool_decide_eq_false_2 (m !! key = None)) by congruence.
  rewrite andb_false_r. reflexivity.
Qed.

Lemma js_set_proto (value : string) (m : gmap string string) :
  m !! "__proto__" = None → js_set "__proto__" value m = m.
Proof.
  intros Hk. unfold js_set. rewrite !bool_decide_eq_true_2 by done. reflexivity.
Qed.

Lemma removeOld_js_get (ip : string) (m : gmap string string) (n : Name.t) :
  removeOld ip (js_get m ip) n = removeOwn ip (m !! ip) n.
Proof.
  unfold removeOld, removeOwn, js_get. destruct (m !! ip) as [s|].
  - cbn [truthy_property truthy_ostr is_choice].
    destruct (bool_decide (ip ≠ "unknown") && truthy_str s); [|reflexivity].
    repeat case_bool_decide; congruence.
  - rewrite andb_false_r.
    destruct (bool_decide (ip ∈ prototype_keys)); cbn;
      [|rewrite andb_false_r; reflexivity].
    destruct (bool_decide (ip ≠ "unknown")); reflexivity.
Qed.

Lemma applyVote_mapping (ip type : string) (n : Name.t) (m : gmap string string) :
  Name.votedIPs n = LObject m →
  applyVote ip type n = applyNew ip type m (removeOwn ip (m !! ip) n).
Proof.
  destruct n as [i nm v d l]. simpl. intros ->. unfold applyVote.
  rewrite removeOld_js_get. reflexivity.
Qed.

Lemma applyVote_none_absent (ip : string) (n : Name.t) (m : gmap string string) :
  Name.votedIPs n = LObject m →
  m !! ip = None →
  applyVote ip "none" n = n.
Proof.
  intros Hl Hip. rewrite (applyVote_mapping _ _ _ _ Hl), Hip.
  unfold removeOwn, applyNew. simpl. rewrite andb_false_r. simpl.
  rewrite delete_id by assumption.
  destruct n; simpl in *; subst; reflexivity.
Qed.

Lemma clientIP_resolvable (ip : string) :
  truthy_str ip = true → clientIP (Some ip) = ip.
Proof. unfold clientIP. simpl. intros ->. reflexivity. Qed.

Lemma applyVote_same_choice (ip c : string) (n : Name.t) (m : gmap string string) :
  Name.votedIPs n = LObject m →
  ip ≠ "unknown" →
  m !! ip = Some c →
  (c = "up" ∧ (1 ≤ or0 (Name.votes n))%Z)
  ∨ (c = "down" ∧ (1 ≤ or0 (Name.dislikes n))%Z) →
  applyVote ip c n = n.
Proof.
  intros Hl Hip Hc Hcount. rewrite (applyVote_mapping _ _ _ _ Hl), Hc.
  destruct n as [i nm v d l]. simpl in *. subst l.
  unfold removeOwn, applyNew.
  rewrite (bool_decide_eq_true_2 (ip ≠ "unknown") Hip).
  rewrite (js_set_own ip c c m Hc), (insert_id m ip c Hc).
  destruct Hcount as [[-> Hn]|[-> Hn]]; cbn in Hn |- *.
  - destruct v as [v|]; cbn in Hn |- *; [|lia].
    decide_literals. cbn.
    replace (Z.max 0 (v - 1) + 1)%Z with v by lia. reflexivity.
  - destruct d as [d|]; cbn in Hn |- *; [|lia].
    decide_literals. cbn.
    replace (Z.max 0 (d - 1) + 1)%Z with d by lia. reflexivity.
Qed.

Lemma applyVote_refines_spec (ip type : string) (n : Name.t) (m : gmap string string) :
  Name.votedIPs n = LObject m →
  ip ≠ "__proto__" →
  applyVote ip type n = applyVote_spec ip type m n.
Proof.
  intros Hl Hproto. rewrite (applyVote_mapping _ _ _ _ Hl).
  destruct n as [i nm v d l]. cbn in Hl. subst l.
  unfold applyVote_spec, applyNew, removeOwn, decrement_matching, increment_matching.
  rewrite (js_set_other _ _ _ Hproto).
  destruct (m !! ip) as [p|]; cbn.
  - destruct p as [|a p]; cbn; decide_literals; reflexivity.
  - rewrite andb_false_r. decide_literals; reflexivity.
Qed.

(** ** Preservation of the tally invariant *)

Lemma tally_ok_new (now name : string) : tally_ok (newName now name).
Proof. split; cbn; rewrite tally_empty; reflexivity. Qed.

Lemma applyVote_tally_ok (ip type : string) (n : Name.t) :
  ip ≠ "unknown" →
  ip ≠ "__proto__" →
  valid_type (Some type) = true →
  tally_ok n →
  tally_ok (applyVote ip type n).
Proof.
  intros Hip Hproto Hty [Hv Hd].
  destruct n as [i nm v d l]. cbn in Hv, Hd. subst v d.
  unfold applyVote. rewrite removeOld_js_get. cbn. set (m := convert l).
  pose proof (tally_nonneg "up" (delete ip m)) as Hup.
  pose proof (tally_nonneg "down" (delete ip m)) as Hdown.
  pose proof (tally_delete "up" m ip) as Hdu.
  pose proof (tally_delete "down" m ip) as Hdd.
  unfold tally_ok, applyNew, removeOwn.
  rewrite (bool_decide_eq_true_2 (ip ≠ "unknown") Hip), (js_set_other _ _ _ Hproto).
  destruct (valid_type_cases _ Hty) as [-> | [-> | ->]];
    destruct (m !! ip) as [p|] eqn:Hp; cbn;
    try (destruct p as [|a p]; cbn);
    decide_literals; cbn;
    rewrite ?tally_insert; decide_literals;
    split; f_equal; lia.
Qed.

(** ** Duplicate votes (C1) *)

(** C1, as stated, fails: a second "up" from the address that has already
    voted "up" is answered with status 200, not 403. *)
Lemma duplicate_vote_is_accepted :
  post_vote (Some "1") (Some "up") (Some "203.0.113.1") (Some [mia_up])
    = (mkResponse 200 (BRecord mia_up), Some [mia_up])
  ∧ status (post_vote (Some "1") (Some "up") (Some "203.0.113.1") (Some [mia_up])).1 ≠ 403.
Proof.
  assert (E : post_vote (Some "1") (Some "up") (Some "203.0.113.1") (Some [mia_up])
              = (mkResponse 200 (BRecord mia_up), Some [mia_up]))
    by (vm_compute; reflexivity).
  split; [exact E|]. rewrite E. cbn. discriminate.
Qed.

(** The record after a vote of the choice that the ledger already holds
    for the voter. *)
Lemma applyVote_up_again (ip i nm : string) (v d : option Z) (m : gmap string string) :
  ip ≠ "unknown" →
  m !! ip = Some "up" →
  applyVote ip "up" (Name.mk i nm v d (LObject m))
    = Name.mk i nm (Some (Z.max 0 (or0 v - 1) + 1)%Z) d (LObject m).
Proof.
  intros Hknown Hip.
  rewrite (applyVote_mapping ip _ (Name.mk i nm v d (LObject m)) m eq_refl), Hip.
  unfold removeOwn, applyNew.
  rewrite (bool_decide_eq_true_2 (ip ≠ "unknown") Hknown).
  rewrite (js_set_own _ _ _ _ Hip), (insert_id m ip "up" Hip).
  cbn. decide_literals. reflexivity.
Qed.

Lemma applyVote_down_again (ip i nm : string) (v d : option Z) (m : gmap string string) :
  ip ≠ "unknown" →
  m !! ip = Some "down" →
  applyVote ip "down" (Name.mk i nm v d (LObject m))
    = Name.mk i nm v (Some (Z.max 0 (or0 d - 1) + 1)%Z) (LObject m).
Proof.
  intros Hknown Hip.
  rewrite (applyVote_mapping ip _ (Name.mk i nm v d (LObject m)) m eq_refl), Hip.
  unfold removeOwn, applyNew.
  rewrite (bool_decide_eq_true_2 (ip ≠ "unknown") Hknown).
  rewrite (js_set_own _ _ _ _ Hip), (insert_id m ip "down" Hip).
  cbn. decide_literals. reflexivity.
Qed.

(** C1, amended: on a record in mapping form whose ledger maps a
    resolvable voter identity to the choice c, "up" or "down", a second
    vote of the same choice from that identity is answered with status 200
    and the updated record, which replaces the record in the stored
    collection; the ledger and the counter that does not match c are as
    before, and the counter that matches c, of value n before (0 when
    absent), is max(0, n - 1) + 1.  When n is at least 1 the answer is the
    record as it was, and the record, hence both counters, and the stored
    collection are unchanged. *)
Theorem revote_same_choice_unchanged (id ip c : string)
    (file : option (list Name.t)) (r : Name.t) (m : gmap string string) :
  truthy_str id = true →
  truthy_str ip = true →
  ip ≠ "unknown" →
  find (fun n => id_is n id) (readFile file) = Some r →
  Name.votedIPs r = LObject m →
  m !! ip = Some c →
  c = "up" ∨ c = "down" →
  (∃ r',
     post_vote (Some id) (Some c) (Some ip) file
       = (mkResponse 200 (BRecord r'),
          writeFile (update_first (fun n => id_is n id) (fun _ => r') (readFile file)))
     ∧ Name.votedIPs r' = LObject m
     ∧ (c = "up" →
        Name.votes r' = Some (Z.max 0 (or0 (Name.votes r) - 1) + 1)%Z
        ∧ Name.dislikes r' = Name.dislikes r)
     ∧ (c = "down" →
        Name.dislikes r' = Some (Z.max 0 (or0 (Name.dislikes r) - 1) + 1)%Z
        ∧ Name.votes r' = Name.votes r))
  ∧ ((c = "up" ∧ (1 ≤ or0 (Name.votes r))%Z)
     ∨ (c = "down" ∧ (1 ≤ or0 (Name.dislikes r))%Z) →
     post_vote (Some id) (Some c) (Some ip) file = (mkResponse 200 (BRecord r), file)).
Proof.
  intros Hid Hip Hknown Hfind Hl Hc Hchoice.
  assert (Hty : valid_type (Some c) = true)
    by (destruct Hchoice as [-> | ->]; reflexivity).
  rewrite (post_vote_found _ _ _ _ _ Hid Hty Hfind), (clientIP_resolvable _ Hip).
  split.
  - exists (applyVote ip c r). split.
    + rewrite (update_first_found _ _ _ _ Hfind). reflexivity.
    + destruct r as [i nm v d l]. cbn in Hl. subst l.
      destruct Hchoice as [-> | ->].
      * rewrite (applyVote_up_again _ _ _ _ _ _ Hknown Hc).
        split; [reflexivity|]. split; [intros _; split; reflexivity | discriminate].
      * rewrite (applyVote_down_again _ _ _ _ _ _ Hknown Hc).
        split; [reflexivity|]. split; [discriminate | intros _; split; reflexivity].
  - intros Hcount.
    rewrite (applyVote_same_choice _ _ _ _ Hl Hknown Hc Hcount).
    rewrite (update_first_fixed _ _ _ _ Hfind)
      by (apply (applyVote_same_choice _ _ _ _ Hl Hknown Hc Hcount)).
    rewrite (find_readFile _ _ _ Hfind) at 2. reflexivity.
Qed.

Lemma revote_same_choice_unchanged_witness :
  (∃ r',
     post_vote (Some "1") (Some "up") (Some "203.0.113.1") (Some [mia_up])
       = (mkResponse 200 (BRecord r'),
          writeFile (update_first (fun n => id_is n "1") (fun _ => r')
                       (readFile (Some [mia_up]))))
     ∧ Name.votedIPs r' = LObject {[ "203.0.113.1" := "up" ]}
     ∧ ("up" = "up" →
        Name.votes r' = Some (Z.max 0 (or0 (Name.votes mia_up) - 1) + 1)%Z
        ∧ Name.dislikes r' = Name.dislikes mia_up)
     ∧ ("up" = "down" →
        Name.dislikes r' = Some (Z.max 0 (or0 (Name.dislikes mia_up) - 1) + 1)%Z
        ∧ Name.votes r' = Name.votes mia_up))
  ∧ (("up" = "up" ∧ (1 ≤ or0 (Name.votes mia_up))%Z)
     ∨ ("up" = "down" ∧ (1 ≤ or0 (Name.dislikes mia_up))%Z) →
     post_vote (Some "1") (Some "up") (Some "203.0.113.1") (Some [mia_up])
       = (mkResponse 200 (BRecord mia_up), Some [mia_up])).
Proof.
  apply (revote_same_choice_unchanged "1" "203.0.113.1" "up" (Some [mia_up]) mia_up
           {[ "203.0.113.1" := "up" ]}).
  - reflexivity.
  - reflexivity.
  - discriminate.
  - reflexivity.
  - reflexivity.
  - reflexivity.
  - left. reflexivity.
Defined.

(** With the counter at 0 under an "up" entry, as a legacy migration can
    leave it, the second "up" raises the counter to 1. *)
Example revote_with_counter_at_zero :
  post_vote (Some "1") (Some "up") (Some "203.0.113.1")
    (Some [Name.mk "1" "Mia" (Some 0%Z) (Some 1%Z) (LArray ["203.0.113.1"])])
  = (mkResponse 200
       (BRecord (Name.mk "1" "Mia" (Some 1%Z) (Some 1%Z)
                   (LObject {[ "203.0.113.1" := "up" ]}))),
     Some [Name.mk "1" "Mia" (Some 1%Z) (Some 1%Z)
             (LObject {[ "203.0.113.1" := "up" ]})]).
Proof. vm_compute. reflexivity. Qed.

(** The legacy handler is the one that rejects: an address already in the
    array is answered with 403 and nothing is written. *)
Lemma legacy_duplicate_vote_rejected (id ip : string) (type cf_ip : option string)
    (file : option (list Name.t)) (r : Name.t) (ips : list string) :
  truthy_str id = true →
  Legacy.clientIP cf_ip (Some ip) = ip →
  ip ≠ "unknown" →
  find (fun n => id_is n id) (readFile file) = Some r →
  Name.votedIPs r = LArray ips →
  ip ∈ ips →
  Legacy.post_vote (Some id) type cf_ip (Some ip) file
    = (mkResponse 403 (BError "You have already voted for this name."), file).
Proof.
  intros Hid Hcip Hknown Hfind Hl Hin. unfold Legacy.post_vote. cbn.
  rewrite Hid. cbn. rewrite Hfind, Hl, Hcip.
  rewrite !bool_decide_eq_true_2 by assumption. reflexivity.
Qed.

(** The current handler has three answers, and 403 is none of them. *)
Lemma post_vote_status (b_id b_type req_ip : option string)
    (file : option (list Name.t)) :
  status (post_vote b_id b_type req_ip file).1 = 400
  ∨ status (post_vote b_id b_type req_ip file).1 = 404
  ∨ status (post_vote b_id b_type req_ip file).1 = 200.
Proof.
  unfold post_vote.
  destruct (negb (truthy_ostr b_id) || negb (valid_type b_type)); [left; reflexivity|].
  destruct (find _ _); [right; right | right; left]; reflexivity.
Qed.

Lemma post_vote_never_forbidden (b_id b_type req_ip : option string)
    (file : option (list Name.t)) :
  status (post_vote b_id b_type req_ip file).1 ≠ 403.
Proof.
  destruct (post_vote_status b_id b_type req_ip file) as [E | [E | E]];
    rewrite E; discriminate.
Qed.

(** ** The step sequence of applyVote (C2) *)

(** Away from the key [__proto__]: on a collection that holds the target
    record in mapping form, a vote request of type up, down or none is
    answered with status 200 and the record that the specified steps
    produce (decrement, floored at 0, of the counter matching the previous
    choice of a resolvable identity; then removal of the entry for none,
    else increment of the counter matching the new choice and update of
    the entry), and that record replaces the target in the stored
    collection. *)
Lemma post_vote_follows_spec (id type : string) (req_ip : option string)
    (file : option (list Name.t)) (r : Name.t) (m : gmap string string) :
  truthy_str id = true →
  valid_type (Some type) = true →
  clientIP req_ip ≠ "__proto__" →
  find (fun n => id_is n id) (readFile file) = Some r →
  Name.votedIPs r = LObject m →
  post_vote (Some id) (Some type) req_ip file =
    (mkResponse 200 (BRecord (applyVote_spec (clientIP req_ip) type m r)),
     writeFile (update_first (fun n => id_is n id)
                  (fun _ => applyVote_spec (clientIP req_ip) type m r)
                  (readFile file))).
Proof.
  intros Hid Hty Hproto Hfind Hl.
  rewrite (post_vote_found _ _ _ _ _ Hid Hty Hfind).
  rewrite (update_first_found _ _ _ _ Hfind).
  rewrite (applyVote_refines_spec _ _ _ _ Hl Hproto). reflexivity.
Qed.

Lemma post_vote_follows_spec_witness :
  post_vote (Some "1") (Some "down") (Some "203.0.113.1") (Some [mia_up]) =
    (mkResponse 200
       (BRecord (applyVote_spec "203.0.113.1" "down" {[ "203.0.113.1" := "up" ]} mia_up)),
     writeFile (update_first (fun n => id_is n "1")
                  (fun _ => applyVote_spec "203.0.113.1" "down"
                              {[ "203.0.113.1" := "up" ]} mia_up)
                  [mia_up])).
Proof.
  apply (post_vote_follows_spec "1" "down" (Some "203.0.113.1") (Some [mia_up]) mia_up
           {[ "203.0.113.1" := "up" ]}); try reflexivity.
  vm_compute. discriminate.
Defined.

(** C2 fails on the voter identity [__proto__], which is resolvable: the
    "up" of that caller on a record in mapping form is answered with
    status 200 and votes raised by 1, but [votedIPs[clientIP] = type] is
    dropped by the object, so that the ledger of the record returned and
    stored has no entry for the caller, where the specified steps set the
    entry to "up". *)
Theorem proto_vote_leaves_no_entry :
  post_vote (Some "1") (Some "up") (Some "__proto__") (Some [mia_clear])
    = (mkResponse 200
         (BRecord (Name.mk "1" "Mia" (Some 1%Z) (Some 0%Z) (LObject ∅))),
       Some [Name.mk "1" "Mia" (Some 1%Z) (Some 0%Z) (LObject ∅)])
  ∧ applyVote_spec "__proto__" "up" ∅ mia_clear
    = Name.mk "1" "Mia" (Some 1%Z) (Some 0%Z) (LObject {[ "__proto__" := "up" ]}).
Proof. split; vm_compute; reflexivity. Qed.

(** ** The tally invariant (C3) *)

(** C3, as stated, fails: two "up" votes from the unresolvable identity
    are a sequence of vote operations from a fresh record, after which
    votes is 2 while one identity is mapped to "up". *)
Lemma unknown_votes_break_tally :
  let n := applyVote "unknown" "up" (applyVote "unknown" "up" (newName "1" "Mia")) in
  reachable (fun _ => True) n
  ∧ Name.votes n = Some 2%Z
  ∧ tally "up" (convert (Name.votedIPs n)) = 1%Z
  ∧ ¬ tally_ok n.
Proof.
  assert (Hv : Name.votes (applyVote "unknown" "up"
                 (applyVote "unknown" "up" (newName "1" "Mia"))) = Some 2%Z)
    by (vm_compute; reflexivity).
  assert (Ht : tally "up" (convert (Name.votedIPs (applyVote "unknown" "up"
                 (applyVote "unknown" "up" (newName "1" "Mia"))))) = 1%Z)
    by (vm_compute; reflexivity).
  cbv zeta. split; [|split; [|split]].
  - repeat (apply reach_vote; [| exact I | reflexivity]). apply reach_new.
  - exact Hv.
  - exact Ht.
  - intros [Hup _]. rewrite Hv, Ht in Hup. discriminate.
Qed.

(** The same run through the handlers: a name is suggested, then voted
    "up" twice by a caller without an address. *)
Example unknown_votes_through_handlers :
  let f0 := (post_names "1" (Some "Mia") (Some [])).2 in
  let f1 := (post_vote (Some "1") (Some "up") None f0).2 in
  post_vote (Some "1") (Some "up") None f1 =
    (mkResponse 200
       (BRecord (Name.mk "1" "Mia" (Some 2%Z) (Some 0%Z)
                   (LObject {[ "unknown" := "up" ]}))),
     Some [Name.mk "1" "Mia" (Some 2%Z) (Some 0%Z)
             (LObject {[ "unknown" := "up" ]})]).
Proof. vm_compute. reflexivity. Qed.

(** The votes of the identity [__proto__], whose entry the ledger never
    takes, break the tally in the same way: two "up" votes leave votes at
    2 and the ledger empty. *)
Example proto_votes_break_tally :
  let n := applyVote "__proto__" "up" (applyVote "__proto__" "up" (newName "1" "Mia")) in
  Name.votes n = Some 2%Z ∧ Name.votedIPs n = LObject ∅.
Proof. vm_compute. split; reflexivity. Qed.

(** C3, amended: every record reachable from a freshly created record by
    a sequence of votes whose voter identities are resolvable (none of
    them the sentinel "unknown") and different from the key [__proto__]
    has votes equal to the number of identities mapped to "up" and
    dislikes equal to the number mapped to "down". *)
Theorem reachable_tally_ok (n : Name.t) :
  reachable (fun ip => ip ≠ "unknown" ∧ ip ≠ "__proto__") n → tally_ok n.
Proof.
  induction 1 as [now name | n ip type _ IH [Hip Hproto] Hty].
  - apply tally_ok_new.
  - apply applyVote_tally_ok; assumption.
Qed.

Lemma reachable_tally_ok_witness :
  tally_ok (applyVote "203.0.113.1" "down"
              (applyVote "203.0.113.1" "up" (newName "1" "Mia"))).
Proof.
  apply reachable_tally_ok.
  apply reach_vote; [| split; discriminate | reflexivity].
  apply reach_vote; [| split; discriminate | reflexivity].
  apply reach_new.
Defined.

(** A reachable record is in mapping form as soon as one vote has been
    applied, so the statement above covers every such record. *)
Lemma applyVote_mapping_form (ip type : string) (n : Name.t) :
  ∃ m, Name.votedIPs (applyVote ip type n) = LObject m.
Proof.
  unfold applyVote, applyNew. case_bool_decide; eexists; reflexivity.
Qed.

(** ** Up, then down, then none (C5) *)

(** C5, as stated, fails: the "down" that follows an "up" of the same
    voter changes both counters, votes from 1 to 0 and dislikes from 0 to
    1. *)
Lemma up_then_down_changes_both :
  let r1 := applyVote "203.0.113.1" "up" mia_clear in
  let r2 := applyVote "203.0.113.1" "down" r1 in
  (Name.votes r1 = Some 1%Z ∧ Name.dislikes r1 = Some 0%Z)
  ∧ (Name.votes r2 = Some 0%Z ∧ Name.dislikes r2 = Some 1%Z)
  ∧ Name.votes r2 ≠ Name.votes r1
  ∧ Name.dislikes r2 ≠ Name.dislikes r1.
Proof.
  cbv zeta.
  assert (H1 : applyVote "203.0.113.1" "up" mia_clear = mia_up)
    by (vm_compute; reflexivity).
  assert (H2 : applyVote "203.0.113.1" "down" mia_up
               = Name.mk "1" "Mia" (Some 0%Z) (Some 1%Z)
                   (LObject {[ "203.0.113.1" := "down" ]}))
    by (vm_compute; reflexivity).
  rewrite H1, H2. cbn. repeat split; discriminate.
Qed.

(** The three steps, each on a record in mapping form. *)
Lemma applyVote_up_first (A i nm : string) (v d : option Z) (m : gmap string string) :
  A ≠ "__proto__" →
  m !! A = None →
  applyVote A "up" (Name.mk i nm v d (LObject m))
    = Name.mk i nm (Some (or0 v + 1)%Z) d (LObject (<[A := "up"]> m)).
Proof.
  intros Hproto HA.
  rewrite (applyVote_mapping A _ (Name.mk i nm v d (LObject m)) m eq_refl), HA.
  unfold applyNew, removeOwn. rewrite (js_set_other _ _ _ Hproto). cbn.
  rewrite andb_false_r. decide_literals. reflexivity.
Qed.

Lemma applyVote_up_to_down (A i nm : string) (v d : option Z) (m : gmap string string) :
  A ≠ "unknown" →
  m !! A = Some "up" →
  applyVote A "down" (Name.mk i nm v d (LObject m))
    = Name.mk i nm (Some (Z.max 0 (or0 v - 1))) (Some (or0 d + 1)%Z)
        (LObject (<[A := "down"]> m)).
Proof.
  intros Hknown HA.
  rewrite (applyVote_mapping A _ (Name.mk i nm v d (LObject m)) m eq_refl), HA.
  unfold applyNew, removeOwn. rewrite (js_set_own _ _ _ _ HA). cbn.
  decide_literals. reflexivity.
Qed.

Lemma applyVote_down_to_none (A i nm : string) (v d : option Z) (m : gmap string string) :
  A ≠ "unknown" →
  m !! A = Some "down" →
  applyVote A "none" (Name.mk i nm v d (LObject m))
    = Name.mk i nm v (Some (Z.max 0 (or0 d - 1))) (LObject (delete A m)).
Proof.
  intros Hknown HA.
  rewrite (applyVote_mapping A _ (Name.mk i nm v d (LObject m)) m eq_refl), HA.
  unfold applyNew, removeOwn. cbn.
  decide_literals. reflexivity.
Qed.

(** For the voter [__proto__] the sequence ends with both counters one
    higher than before: the "up" leaves no entry, so that neither the
    "down" nor the "none" finds a previous choice to take back. *)
Example proto_up_down_none :
  applyVote "__proto__" "none"
    (applyVote "__proto__" "down" (applyVote "__proto__" "up" mia_clear))
  = Name.mk "1" "Mia" (Some 1%Z) (Some 1%Z) (LObject ∅).
Proof. vm_compute. reflexivity. Qed.

(** C5, amended: on a record in mapping form with counters that are not
    negative and no entry for the voter A, where A is resolvable (not
    "unknown") and is not the key [__proto__], the "up" of A raises votes
    by 1 and leaves dislikes; the following "down" lowers votes by 1 and
    raises dislikes by 1; the following "none" lowers dislikes by 1 and
    leaves votes; both counters end at their values before the sequence
    and the ledger ends as it was, without A. *)
Theorem up_down_none_sequence (A : string) (r : Name.t) (m : gmap string string) :
  Name.votedIPs r = LObject m →
  m !! A = None →
  A ≠ "unknown" →
  A ≠ "__proto__" →
  (0 ≤ or0 (Name.votes r))%Z →
  (0 ≤ or0 (Name.dislikes r))%Z →
  let r1 := applyVote A "up" r in
  let r2 := applyVote A "down" r1 in
  let r3 := applyVote A "none" r2 in
  (or0 (Name.votes r1) = (or0 (Name.votes r) + 1)%Z
   ∧ Name.dislikes r1 = Name.dislikes r)
  ∧ (or0 (Name.votes r2) = (or0 (Name.votes r1) - 1)%Z
     ∧ or0 (Name.dislikes r2) = (or0 (Name.dislikes r1) + 1)%Z)
  ∧ (Name.votes r3 = Name.votes r2
     ∧ or0 (Name.dislikes r3) = (or0 (Name.dislikes r2) - 1)%Z)
  ∧ or0 (Name.votes r3) = or0 (Name.votes r)
  ∧ or0 (Name.dislikes r3) = or0 (Name.dislikes r)
  ∧ Name.votedIPs r3 = LObject m
  ∧ convert (Name.votedIPs r3) !! A = None.
Proof.
  intros Hl HA Hknown Hproto Hv Hd r1 r2 r3.
  destruct r as [i nm v d l]. cbn in Hl, Hv, Hd. subst l.
  assert (E1 : r1 = Name.mk i nm (Some (or0 v + 1)%Z) d (LObject (<[A := "up"]> m)))
    by (apply applyVote_up_first; assumption).
  assert (E2 : r2 = Name.mk i nm (Some (or0 v)) (Some (or0 d + 1)%Z)
                     (LObject (<[A := "down"]> m))).
  { subst r2. rewrite E1, applyVote_up_to_down by (assumption || apply lookup_insert_eq).
    rewrite insert_insert_eq. cbn. do 2 f_equal. unfold or0 in *. lia. }
  assert (E3 : r3 = Name.mk i nm (Some (or0 v)) (Some (or0 d)) (LObject m)).
  { subst r3. rewrite E2, applyVote_down_to_none by (assumption || apply lookup_insert_eq).
    rewrite delete_insert_eq, (delete_id m A HA). cbn. do 2 f_equal. unfold or0 in *. lia. }
  rewrite E1, E2, E3. cbn. unfold or0 in *. repeat split; try assumption; lia.
Qed.

Lemma up_down_none_sequence_witness :
  let r1 := applyVote "203.0.113.1" "up" mia_clear in
  let r2 := applyVote "203.0.113.1" "down" r1 in
  let r3 := applyVote "203.0.113.1" "none" r2 in
  (or0 (Name.votes r1) = (or0 (Name.votes mia_clear) + 1)%Z
   ∧ Name.dislikes r1 = Name.dislikes mia_clear)
  ∧ (or0 (Name.votes r2) = (or0 (Name.votes r1) - 1)%Z
     ∧ or0 (Name.dislikes r2) = (or0 (Name.dislikes r1) + 1)%Z)
  ∧ (Name.votes r3 = Name.votes r2
     ∧ or0 (Name.dislikes r3) = (or0 (Name.dislikes r2) - 1)%Z)
  ∧ or0 (Name.votes r3) = or0 (Name.votes mia_clear)
  ∧ or0 (Name.dislikes r3) = or0 (Name.dislikes mia_clear)
  ∧ Name.votedIPs r3 = LObject ∅
  ∧ convert (Name.votedIPs r3) !! "203.0.113.1" = None.
Proof.
  apply (up_down_none_sequence "203.0.113.1" mia_clear ∅).
  - reflexivity.
  - reflexivity.
  - discriminate.
  - discriminate.
  - simpl. lia.
  - simpl. lia.
Defined.

(** ** Conversion of a legacy ledger (C6) *)

(** The conversion gives every address of the array the entry "up", the
    key [__proto__] apart, which gets none. *)
Lemma legacyMap_lookup (ips : list string) (k : string) :
  legacyMap ips !! k
    = if bool_decide (k ∈ ips ∧ k ≠ "__proto__") then Some "up" else None.
Proof.
  unfold legacyMap.
  assert (G : ∀ acc : gmap string string,
             acc !! "__proto__" = None →
             foldl (fun m ip => js_set ip "up" m) acc ips !! k
             = if bool_decide (k ∈ ips ∧ k ≠ "__proto__") then Some "up" else acc !! k).
  { induction ips as [|x t IH]; intros acc Hacc; cbn.
    - rewrite bool_decide_eq_false_2; [reflexivity|].
      intros [Hin _]. exact (not_elem_of_nil _ Hin).
    - assert (Hacc' : js_set x "up" acc !! "__proto__" = None).
      { destruct (decide (x = "__proto__")) as [->|Hx].
        - rewrite (js_set_proto _ _ Hacc). exact Hacc.
        - rewrite (js_set_other _ _ _ Hx), lookup_insert_ne by exact Hx. exact Hacc. }
      rewrite (IH _ Hacc').
      destruct (decide (k ∈ t ∧ k ≠ "__proto__")) as [Ht|Ht].
      + rewrite !bool_decide_eq_true_2; [reflexivity | | assumption].
        destruct Ht as [Ht Hk]. split; [apply elem_of_cons; auto | exact Hk].
      + rewrite (bool_decide_eq_false_2 _ Ht).
        destruct (decide (k = "__proto__")) as [->|Hk].
        * rewrite Hacc', Hacc. rewrite bool_decide_eq_false_2; [reflexivity|].
          intros [_ Hne]. apply Hne. reflexivity.
        * destruct (decide (k = x)) as [->|Hx].
          -- rewrite (js_set_other _ _ _ Hk), lookup_insert_eq.
             rewrite bool_decide_eq_true_2; [reflexivity|].
             split; [apply elem_of_cons; auto | exact Hk].
          -- assert (Hset : js_set x "up" acc !! k = acc !! k).
             { unfold js_set. destruct (_ && _); [reflexivity|].
               apply lookup_insert_ne. congruence. }
             rewrite Hset. rewrite bool_decide_eq_false_2; [reflexivity|].
             rewrite elem_of_cons. tauto. }
  rewrite G by apply lookup_empty. rewrite lookup_empty.
  destruct (bool_decide _); reflexivity.
Qed.

Lemma applyVote_ledger (ip type : string) (n : Name.t) :
  Name.votedIPs (applyVote ip type n) =
    LObject (if bool_decide (type = "none")
             then delete ip (convert (Name.votedIPs n))
             else js_set ip type (convert (Name.votedIPs n))).
Proof. unfold applyVote, applyNew. case_bool_decide; reflexivity. Qed.

Lemma js_set_lookup_ne (key value k : string) (m : gmap string string) :
  k ≠ key → js_set key value m !! k = m !! k.
Proof.
  intros Hk. unfold js_set. destruct (_ && _); [reflexivity|].
  apply lookup_insert_ne. congruence.
Qed.

(** What the conversion does: the first vote on a record whose ledger is
    an array leaves it with a ledger in mapping form in which every
    address of the array other than [__proto__] is mapped to "up" and no
    other address has an entry, the entry of the voter apart, which is
    then the vote just made (none when the voter is [__proto__]); a
    missing ledger is handled as the empty mapping. *)
Lemma legacy_ledger_converted (ip type i nm : string) (v d : option Z)
    (ips : list string) :
  (∀ k, convert (LArray ips) !! k
        = if bool_decide (k ∈ ips ∧ k ≠ "__proto__") then Some "up" else None)
  ∧ applyVote ip type (Name.mk i nm v d (LArray ips))
    = applyVote ip type (Name.mk i nm v d (LObject (convert (LArray ips))))
  ∧ (∃ m', Name.votedIPs (applyVote ip type (Name.mk i nm v d (LArray ips))) = LObject m'
       ∧ (∀ k, k ≠ ip →
            m' !! k = if bool_decide (k ∈ ips ∧ k ≠ "__proto__") then Some "up" else None)
       ∧ m' !! ip = if bool_decide (type = "none") || bool_decide (ip = "__proto__")
                    then None else Some type)
  ∧ convert LAbsent = ∅
  ∧ applyVote ip type (Name.mk i nm v d LAbsent)
    = applyVote ip type (Name.mk i nm v d (LObject ∅))
  ∧ (∃ m', Name.votedIPs (applyVote ip type (Name.mk i nm v d LAbsent)) = LObject m'
       ∧ (∀ k, k ≠ ip → m' !! k = None)
       ∧ m' !! ip = if bool_decide (type = "none") || bool_decide (ip = "__proto__")
                    then None else Some type).
Proof.
  assert (Hproto : ∀ ips', legacyMap ips' !! "__proto__" = None).
  { intros ips'. rewrite legacyMap_lookup. rewrite bool_decide_eq_false_2; [reflexivity|].
    intros [_ Hne]. apply Hne. reflexivity. }
  split; [intros k; apply legacyMap_lookup|].
  split; [reflexivity|].
  split.
  { eexists. split; [apply applyVote_ledger|]. cbn. split.
    - intros k Hk. case_bool_decide.
      + rewrite lookup_delete_ne by congruence. apply legacyMap_lookup.
      + rewrite (js_set_lookup_ne _ _ _ _ Hk). apply legacyMap_lookup.
    - case_bool_decide; cbn; [apply lookup_delete_eq|].
      case_bool_decide.
      + subst ip. rewrite (js_set_proto _ _ (Hproto ips)). apply Hproto.
      + rewrite js_set_other by assumption. apply lookup_insert_eq. }
  split; [reflexivity|].
  split; [reflexivity|].
  eexists. split; [apply applyVote_ledger|]. cbn. split.
  - intros k Hk. case_bool_decide.
    + rewrite lookup_delete_ne by congruence. apply lookup_empty.
    + rewrite (js_set_lookup_ne _ _ _ _ Hk). apply lookup_empty.
  - case_bool_decide; cbn; [apply lookup_delete_eq|].
    case_bool_decide.
    + subst ip. rewrite js_set_proto by apply lookup_empty. apply lookup_empty.
    + rewrite js_set_other by assumption. apply lookup_insert_eq.
Qed.

(** C6 fails on a legacy array that holds the address [__proto__], which
    the legacy handler pushes as it does any other header value: the
    conversion drops [legacyMap[ip] = 'up'] for it, so that after the
    first vote the ledger is in mapping form with "up" for the other
    legacy address and for the voter, and no entry for [__proto__]. *)
Theorem legacy_proto_address_not_converted :
  let r := Name.mk "1" "Mia" (Some 2%Z) (Some 0%Z)
             (LArray ["__proto__"; "198.51.100.7"]) in
  "__proto__" ∈ ["__proto__"; "198.51.100.7"]
  ∧ convert (Name.votedIPs r) = {[ "198.51.100.7" := "up" ]}
  ∧ convert (Name.votedIPs r) !! "__proto__" = None
  ∧ post_vote (Some "1") (Some "up") (Some "203.0.113.1") (Some [r])
    = (mkResponse 200
         (BRecord (Name.mk "1" "Mia" (Some 3%Z) (Some 0%Z)
                     (LObject {[ "198.51.100.7" := "up"; "203.0.113.1" := "up" ]}))),
       Some [Name.mk "1" "Mia" (Some 3%Z) (Some 0%Z)
               (LObject {[ "198.51.100.7" := "up"; "203.0.113.1" := "up" ]})]).
Proof.
  cbv zeta. split; [apply elem_of_cons; auto|].
  split; [vm_compute; reflexivity|].
  split; vm_compute; reflexivity.
Qed.

(** The legacy handler stores such an address: its ledger takes the
    header value as it comes. *)
Example legacy_vote_stores_proto :
  (Legacy.post_vote (Some "1") (Some "up") (Some "__proto__") None
     (Some [newName "1" "Mia"])).2
  = Some [Name.mk "1" "Mia" (Some 1%Z) (Some 0%Z) (LArray ["__proto__"])].
Proof. vm_compute. reflexivity. Qed.

(** ** Votes of an unresolvable caller (C8) *)

Lemma clientIP_absent : clientIP None = "unknown".
Proof. reflexivity. Qed.

Lemma removeOld_unknown (previousVote : property) (n : Name.t) :
  removeOld "unknown" previousVote n = n.
Proof.
  unfold removeOld.
  rewrite bool_decide_eq_false_2 by (intros H; apply H; reflexivity).
  reflexivity.
Qed.

Lemma applyVote_unknown_up (n : Name.t) :
  or0 (Name.votes (applyVote "unknown" "up" n)) = (or0 (Name.votes n) + 1)%Z
  ∧ Name.dislikes (applyVote "unknown" "up" n) = Name.dislikes n.
Proof.
  unfold applyVote. rewrite removeOld_unknown. unfold applyNew.
  decide_literals. destruct n; split; reflexivity.
Qed.

Lemma applyVote_unknown_down (n : Name.t) :
  or0 (Name.dislikes (applyVote "unknown" "down" n)) = (or0 (Name.dislikes n) + 1)%Z
  ∧ Name.votes (applyVote "unknown" "down" n) = Name.votes n.
Proof.
  unfold applyVote. rewrite removeOld_unknown. unfold applyNew.
  decide_literals. destruct n; split; reflexivity.
Qed.

Lemma id_is_applyVote (ip type id : string) (n : Name.t) :
  id_is (applyVote ip type n) id = id_is n id.
Proof. unfold id_is, Name_identified. rewrite applyVote_id. reflexivity. Qed.

Lemma repeat_vote_unknown (k : nat) (id type : string) (req_ip : option string)
    (file : option (list Name.t)) (r : Name.t) :
  truthy_str id = true →
  clientIP req_ip = "unknown" →
  type = "up" ∨ type = "down" →
  find (fun n => id_is n id) (readFile file) = Some r →
  ∃ rk,
    find (fun n => id_is n id) (readFile (repeat_vote k id type req_ip file)) = Some rk
    ∧ (type = "up" →
       or0 (Name.votes rk) = (or0 (Name.votes r) + Z.of_nat k)%Z
       ∧ Name.dislikes rk = Name.dislikes r)
    ∧ (type = "down" →
       or0 (Name.dislikes rk) = (or0 (Name.dislikes r) + Z.of_nat k)%Z
       ∧ Name.votes rk = Name.votes r).
Proof.
  intros Hid Hip Hty Hfind.
  assert (Hvalid : valid_type (Some type) = true)
    by (destruct Hty as [-> | ->]; reflexivity).
  induction k as [|k (rk & Hk & Hup & Hdown)].
  - exists r. cbn. split; [assumption|]. split; intros _; split; (lia || reflexivity).
  - exists (applyVote "unknown" type rk). cbn [repeat_vote].
    rewrite (post_vote_found _ _ _ _ _ Hid Hvalid Hk), Hip. cbn [snd writeFile readFile default].
    split.
    + apply find_update_first; [assumption|].
      rewrite id_is_applyVote. apply (find_some _ _ Hk).
    + split; intros ->.
      * destruct (applyVote_unknown_up rk) as [E1 E2], (Hup eq_refl) as [E3 E4].
        split; [lia | congruence].
      * destruct (applyVote_unknown_down rk) as [E1 E2], (Hdown eq_refl) as [E3 E4].
        split; [lia | congruence].
Qed.

(** C8: a caller whose identity is the sentinel "unknown" is never
    rejected: after any number [k] of accepted votes of one direction, the
    next one is answered with status 200 and a record whose matching
    counter is the initial one plus [k + 1], the other counter as it was:
    every vote adds 1 and none is taken back. *)
Theorem unknown_votes_unlimited (k : nat) (id type : string) (req_ip : option string)
    (file : option (list Name.t)) (r : Name.t) :
  truthy_str id = true →
  clientIP req_ip = "unknown" →
  type = "up" ∨ type = "down" →
  find (fun n => id_is n id) (readFile file) = Some r →
  ∃ r',
    (post_vote (Some id) (Some type) req_ip (repeat_vote k id type req_ip file)).1
      = mkResponse 200 (BRecord r')
    ∧ (type = "up" →
       or0 (Name.votes r') = (or0 (Name.votes r) + Z.of_nat k + 1)%Z
       ∧ Name.dislikes r' = Name.dislikes r)
    ∧ (type = "down" →
       or0 (Name.dislikes r') = (or0 (Name.dislikes r) + Z.of_nat k + 1)%Z
       ∧ Name.votes r' = Name.votes r).
Proof.
  intros Hid Hip Hty Hfind.
  destruct (repeat_vote_unknown k _ _ _ _ _ Hid Hip Hty Hfind) as (rk & Hk & Hup & Hdown).
  assert (Hvalid : valid_type (Some type) = true)
    by (destruct Hty as [-> | ->]; reflexivity).
  exists (applyVote "unknown" type rk).
  rewrite (post_vote_found _ _ _ _ _ Hid Hvalid Hk), Hip.
  split; [reflexivity|].
  split; intros ->.
  - destruct (applyVote_unknown_up rk) as [E1 E2], (Hup eq_refl) as [E3 E4].
    split; [lia | congruence].
  - destruct (applyVote_unknown_down rk) as [E1 E2], (Hdown eq_refl) as [E3 E4].
    split; [lia | congruence].
Qed.

Lemma unknown_votes_unlimited_witness :
  ∃ r',
    (post_vote (Some "1") (Some "up") None
       (repeat_vote 3 "1" "up" None (Some [mia_up]))).1
      = mkResponse 200 (BRecord r')
    ∧ ("up" = "up" →
       or0 (Name.votes r') = (or0 (Name.votes mia_up) + Z.of_nat 3 + 1)%Z
       ∧ Name.dislikes r' = Name.dislikes mia_up)
    ∧ ("up" = "down" →
       or0 (Name.dislikes r') = (or0 (Name.dislikes mia_up) + Z.of_nat 3 + 1)%Z
       ∧ Name.votes r' = Name.votes mia_up).
Proof.
  apply (unknown_votes_unlimited 3 "1" "up" None (Some [mia_up]) mia_up).
  - reflexivity.
  - reflexivity.
  - left. reflexivity.
  - reflexivity.
Defined.

(** ** Withdrawal without a vote (C10) *)

(** C10: on an existing record in mapping form, a vote of type "none" from
    a voter identity without an entry is answered with status 200 and the
    record, and leaves the record and the stored collection as they
    were. *)
Theorem vote_none_without_entry (id : string) (req_ip : option string)
    (file : option (list Name.t)) (r : Name.t) (m : gmap string string) :
  truthy_str id = true →
  find (fun n => id_is n id) (readFile file) = Some r →
  Name.votedIPs r = LObject m →
  m !! clientIP req_ip = None →
  post_vote (Some id) (Some "none") req_ip file = (mkResponse 200 (BRecord r), file).
Proof.
  intros Hid Hfind Hl Hip.
  rewrite (post_vote_found id "none" req_ip file r Hid eq_refl Hfind).
  rewrite (applyVote_none_absent _ _ _ Hl Hip).
  rewrite (update_first_fixed _ _ _ _ Hfind)
    by (apply (applyVote_none_absent _ _ _ Hl Hip)).
  rewrite (find_readFile _ _ _ Hfind) at 2. reflexivity.
Qed.

Lemma vote_none_without_entry_witness :
  post_vote (Some "1") (Some "none") (Some "198.51.100.7") (Some [mia_up])
    = (mkResponse 200 (BRecord mia_up), Some [mia_up]).
Proof.
  apply (vote_none_without_entry "1" (Some "198.51.100.7") (Some [mia_up]) mia_up
           {[ "203.0.113.1" := "up" ]}).
  - reflexivity.
  - reflexivity.
  - reflexivity.
  - vm_compute. reflexivity.
Defined.

(** ** The offers listing (C7) *)

Lemma stringify_parsed (o : gmap string json) : stringify (parsed o) = o.
Proof.
  apply map_eq. intros k. unfold stringify, parsed.
  rewrite lookup_omap, lookup_fmap. destruct (o !! k); reflexivity.
Qed.

Lemma stringify_email_undefined (o : gmap string json) :
  stringify (<["email" := None]> (parsed o)) = delete "email" o.
Proof.
  apply map_eq. intros k. unfold stringify, parsed. rewrite lookup_omap.
  destruct (decide (k = "email")) as [->|Hk].
  - rewrite lookup_insert_eq, lookup_delete_eq. reflexivity.
  - rewrite lookup_insert_ne, lookup_delete_ne, lookup_fmap by congruence.
    destruct (o !! k); reflexivity.
Qed.

(** C7: the offers listing is answered with status 200; with the admin
    PIN the emitted array is the stored one, so that each record carries
    its email as stored; without it (no PIN or another one) every emitted
    record is the stored record without its [email] key, which no emitted
    record then has, whatever the stored record holds. *)
Theorem offers_listing_email (ADMIN_PIN : string) (pin : option string)
    (file : option (list (gmap string json))) :
  get_offers ADMIN_PIN pin file =
    mkResponse 200
      (BList (if bool_decide (pin = Some ADMIN_PIN)
              then readFile file
              else delete "email" <$> readFile file))
  ∧ Forall (fun o : gmap string json => o !! "email" = None)
      (delete "email" <$> readFile file)
  ∧ Forall2 (fun stored emitted : gmap string json =>
               ∀ k, k ≠ "email" → emitted !! k = stored !! k)
      (readFile file) (delete "email" <$> readFile file).
Proof.
  split; [|split].
  - unfold get_offers, authorized, readOffers.
    rewrite <- !list_fmap_compose. case_bool_decide.
    + rewrite (list_fmap_ext _ (fun o => o) (readFile file))
        by (intros; apply stringify_parsed).
      rewrite list_fmap_id. reflexivity.
    + rewrite (list_fmap_ext _ (delete "email") (readFile file))
        by (intros; apply stringify_email_undefined).
      reflexivity.
  - apply Forall_fmap, Forall_true. intros o. apply lookup_delete_eq.
  - apply Forall2_fmap_r, Forall2_same_length_lookup_2; [reflexivity|].
    intros i x y Hx Hy k Hk. rewrite Hx in Hy. injection Hy as <-.
    apply lookup_delete_ne. congruence.
Qed.

Example public_listing_drops_email :
  get_offers "2026" None
    (Some [ {[ "id" := JStr "7"; "name" := JStr "Tester";
               "email" := JStr "test@example.com" ]} ])
  = mkResponse 200 (BList [ {[ "id" := JStr "7"; "name" := JStr "Tester" ]} ]).
Proof. vm_compute. reflexivity. Qed.

Example admin_listing_keeps_email :
  get_offers "2026" (Some "2026")
    (Some [ {[ "id" := JStr "7"; "name" := JStr "Tester";
               "email" := JStr "test@example.com" ]} ])
  = mkResponse 200
      (BList [ {[ "id" := JStr "7"; "name" := JStr "Tester";
                  "email" := JStr "test@example.com" ]} ]).
Proof. vm_compute. reflexivity. Qed.

(** ** Deleting an id that is not there (C4) *)

Section DeleteAbsent.
Variable ADMIN_PIN : string.

Lemma authorized_pin : authorized ADMIN_PIN (Some ADMIN_PIN) = true.
Proof. unfold authorized. apply bool_decide_eq_true_2. reflexivity. Qed.

(** The names handler has no test for a missing id: it rewrites the
    array, which is the one read, and answers 200. *)
Lemma delete_names_absent (id : string) (file : option (list Name.t)) :
  find (fun n => id_is n id) (readFile file) = None →
  delete_names ADMIN_PIN (Some ADMIN_PIN) id file
    = (mkResponse 200 BSuccess, Some (readFile file)).
Proof.
  intros Hfind. unfold delete_names. rewrite authorized_pin. cbn.
  rewrite (filter_absent _ _ Hfind). reflexivity.
Qed.

Lemma delete_wishlist_absent (id : string) (file : option (list Wish.t)) :
  find (fun i => id_is i id) (readFile file) = None →
  delete_wishlist ADMIN_PIN (Some ADMIN_PIN) id file
    = (mkResponse 404 (BError "Not found"), file).
Proof.
  intros Hfind. unfold delete_wishlist. rewrite authorized_pin. cbn.
  rewrite (filter_absent _ _ Hfind), Nat.eqb_refl. reflexivity.
Qed.

Lemma delete_bets_absent (id : string) (file : option (list Bet.t)) :
  find (fun b => id_is b id) (readFile file) = None →
  delete_bets ADMIN_PIN (Some ADMIN_PIN) id file
    = (mkResponse 404 (BError "Not found"), file).
Proof.
  intros Hfind. unfold delete_bets. rewrite authorized_pin. cbn.
  rewrite (filter_absent _ _ Hfind), Nat.eqb_refl. reflexivity.
Qed.

Lemma delete_offers_absent (id : string) (file : option (list (gmap string json)))
    (uploads : gset string) :
  find (fun o => id_is o id) (readOffers file) = None →
  delete_offers ADMIN_PIN (Some ADMIN_PIN) id file uploads
    = (mkResponse 404 (BError "Not found"), file, uploads).
Proof.
  intros Hfind. unfold delete_offers. rewrite authorized_pin. cbn.
  rewrite Hfind. reflexivity.
Qed.
End DeleteAbsent.

(** C4 fails on the names collection: with the admin PIN, deleting the id
    "404", which the collection does not hold, is answered with status
    200 and a success body; the collection is rewritten as it was. *)
Theorem delete_names_missing_id_succeeds :
  delete_names "2026" (Some "2026") "404" (Some [mia_up])
    = (mkResponse 200 BSuccess, Some [mia_up])
  ∧ find (fun n => id_is n "404") [mia_up] = None.
Proof. split; vm_compute; reflexivity. Qed.

(** ** Bets (C9) *)

Example parseInt_number : parseInt (JNum 3500) = Int 3500.
Proof. reflexivity. Qed.

Example parseInt_prefix : parseInt (JStr " 12kg") = Int 12.
Proof. reflexivity. Qed.

Example parseInt_words : parseInt (JStr "heavy") = NaN.
Proof. reflexivity. Qed.

(** An accepted body: the checks pass, the answer is 201 and the weight
    and size of the bet are what [parseInt] makes of the values sent. *)
Lemma post_bets_created (now iso : string) (b : BetBody) (file : option (list Bet.t))
    (name date : string) (w s : json) :
  b_name b = Some name → truthy_str name = true →
  b_date b = Some date → truthy_str date = true →
  b_weight b = Some w → truthy w = true →
  b_size b = Some s → truthy s = true →
  Nat.ltb 50 (String.length name) = false →
  ∃ bet : Bet.t,
    post_bets now iso b file
      = (mkResponse 201 (BRecord bet), writeFile (readFile file ++ [bet])%list)
    ∧ Bet.weight bet = parseInt w
    ∧ Bet.size bet = parseInt s.
Proof.
  intros Hn Hnt Hd Hdt Hw Hwt Hs Hst Hlen. unfold post_bets.
  rewrite Hn, Hd, Hw, Hs. unfold truthy_ostr at 1 2, truthy_opt.
  rewrite Hnt, Hdt, Hwt, Hst. cbn [negb orb default id]. rewrite Hlen.
  eexists. split; [reflexivity|]. split; reflexivity.
Qed.

(** C9 fails on a body whose weight is a string without a leading digit:
    the body passes the checks, the bet is created with status 201, and
    its weight is [NaN] (emitted as [null]), not an integer. *)
Theorem bet_weight_not_integer :
  let b := mkBetBody (Some "Tester") (Some "2026-08-20") (Some "12:00")
             (Some (JStr "heavy")) (Some (JNum 50)) in
  let bet := Bet.mk "1767225600000" "Tester" "2026-08-20" "12:00" NaN (Int 50)
               "2026-01-01T00:00:00.000Z" in
  post_bets "1767225600000" "2026-01-01T00:00:00.000Z" b (Some [])
    = (mkResponse 201 (BRecord bet), Some [bet])
  ∧ isInteger (Bet.weight bet) = false.
Proof. split; vm_compute; reflexivity. Qed.

(** * Further properties of the handlers *)

(** ** sanitize *)

Section Sanitize.
Implicit Types (s t rep : string) (a c d : ascii).

Lemma occurs_app c s t : occurs c (s ++ t) = occurs c s || occurs c t.
Proof.
  induction s as [|a s IH]; [reflexivity|].
  change (String a s ++ t) with (String a (s ++ t)). cbn [occurs].
  rewrite IH, orb_assoc. reflexivity.
Qed.

Lemma replace_char_removes c rep s :
  occurs c rep = false → occurs c (replace_char c rep s) = false.
Proof.
  intros Hrep. induction s as [|a s IH]; cbn [replace_char]; [reflexivity|].
  destruct (decide (a = c)) as [->|Hne].
  - rewrite occurs_app, Hrep, IH. reflexivity.
  - cbn [occurs]. rewrite IH, bool_decide_eq_false_2 by assumption. reflexivity.
Qed.

Lemma replace_char_keeps_absent c d rep s :
  occurs c rep = false → occurs c s = false →
  occurs c (replace_char d rep s) = false.
Proof.
  intros Hrep. induction s as [|a s IH]; cbn [replace_char occurs]; [reflexivity|].
  intros [Ha Hs]%orb_false_iff. destruct (decide (a = d)).
  - rewrite occurs_app, Hrep, IH by assumption. reflexivity.
  - cbn [occurs]. rewrite Ha, IH by assumption. reflexivity.
Qed.

Lemma replace_char_absent c rep s :
  occurs c s = false → replace_char c rep s = s.
Proof.
  induction s as [|a s IH]; cbn [replace_char occurs]; [reflexivity|].
  intros [Ha Hs]%orb_false_iff. apply bool_decide_eq_false in Ha.
  rewrite decide_False by assumption. rewrite IH by assumption. reflexivity.
Qed.

Lemma trim_start_keeps_absent c s :
  occurs c s = false → occurs c (trim_start s) = false.
Proof.
  induction s as [|a s IH]; [reflexivity|].
  intros H. cbn [trim_start]. destruct (is_space a); [|assumption].
  apply IH. cbn in H. apply orb_false_iff in H. tauto.
Qed.

Lemma trim_end_keeps_absent c s :
  occurs c s = false → occurs c (trim_end s) = false.
Proof.
  induction s as [|a s IH]; [reflexivity|].
  cbn [occurs trim_end]. intros [Ha Hs]%orb_false_iff.
  specialize (IH Hs). destruct (trim_end s) as [|b u].
  - destruct (is_space a); cbn; [reflexivity|]. rewrite Ha. reflexivity.
  - cbn [occurs]. rewrite Ha. exact IH.
Qed.

Lemma trim_end_idem s : trim_end (trim_end s) = trim_end s.
Proof.
  induction s as [|a s IH]; [reflexivity|].
  cbn [trim_end]. destruct (trim_end s) as [|b u] eqn:E.
  - destruct (is_space a) eqn:Ea; [reflexivity|]. cbn. rewrite Ea. reflexivity.
  - cbn [trim_end] in IH |- *. rewrite IH. reflexivity.
Qed.

(** A string that does not start with white space. *)
Lemma trim_start_head s a t : trim_start s = String a t → is_space a = false.
Proof.
  induction s as [|b s IH]; [discriminate|].
  cbn [trim_start]. destruct (is_space b) eqn:Eb; [exact IH|].
  intros [= <- <-]. exact Eb.
Qed.

Lemma trim_start_fixed s :
  (∀ a t, s = String a t → is_space a = false) → trim_start s = s.
Proof.
  destruct s as [|a t]; [reflexivity|].
  intros H. cbn. rewrite (H a t eq_refl). reflexivity.
Qed.

Lemma trim_end_head s a t :
  (∀ b u, s = String b u → is_space b = false) →
  trim_end s = String a t → is_space a = false.
Proof.
  destruct s as [|b u]; [discriminate|].
  intros H. specialize (H b u eq_refl). cbn [trim_end].
  destruct (trim_end u).
  - rewrite H. intros [= <- <-]. exact H.
  - intros [= <- <-]. exact H.
Qed.

Lemma trim_end_last s a t :
  trim_end s = t ++ String a EmptyString → is_space a = false.
Proof.
  revert t. induction s as [|b s IH]; intros t.
  - destruct t; discriminate.
  - cbn [trim_end]. destruct (trim_end s) as [|c u] eqn:E.
    + destruct (is_space b) eqn:Eb.
      * destruct t; discriminate.
      * destruct t as [|x t]; cbn.
        -- intros [= <-]. exact Eb.
        -- intros [= _ H]. destruct t; discriminate.
    + destruct t as [|x t]; cbn.
      * intros H. inversion H.
      * intros [= _ H]. apply (IH t H).
Qed.

Lemma trim_idem s : trim (trim s) = trim s.
Proof.
  unfold trim.
  rewrite (trim_start_fixed (trim_end (trim_start s))).
  - apply trim_end_idem.
  - intros a t. apply trim_end_head. intros b u. apply trim_start_head.
Qed.
End Sanitize.

Lemma sanitize_clean (c : ascii) (s : string) :
  c = "<"%char ∨ c = ">"%char → occurs c (sanitize s) = false.
Proof.
  unfold sanitize, trim. intros [-> | ->];
    apply trim_end_keeps_absent, trim_start_keeps_absent.
  - apply replace_char_keeps_absent; [reflexivity|].
    apply replace_char_removes. reflexivity.
  - apply replace_char_removes. reflexivity.
Qed.

(** X1: what [sanitize] returns holds neither [<] nor [>]. *)
Theorem sanitize_no_angle_brackets (s : string) :
  occurs "<" (sanitize s) = false ∧ occurs ">" (sanitize s) = false.
Proof.
  unfold sanitize, trim. split.
  - apply trim_end_keeps_absent, trim_start_keeps_absent.
    apply replace_char_keeps_absent; [reflexivity|].
    apply replace_char_removes. reflexivity.
  - apply trim_end_keeps_absent, trim_start_keeps_absent.
    apply replace_char_removes. reflexivity.
Qed.

(** X2: [sanitize] is idempotent: the ampersand of an escape is not
    escaped again, and a trimmed string stays as it is. *)
Theorem sanitize_idempotent (s : string) :
  sanitize (sanitize s) = sanitize s.
Proof.
  pose proof (sanitize_clean "<" s (or_introl eq_refl)) as Hlt.
  pose proof (sanitize_clean ">" s (or_intror eq_refl)) as Hgt.
  unfold sanitize at 1.
  rewrite (replace_char_absent "<" _ _ Hlt), (replace_char_absent ">" _ _ Hgt).
  unfold sanitize. apply trim_idem.
Qed.

(** X3: what [sanitize] returns neither starts nor ends with white
    space. *)
Theorem sanitize_trimmed (s t : string) (a : ascii) :
  sanitize s = String a t ∨ sanitize s = t ++ String a EmptyString →
  is_space a = false.
Proof.
  unfold sanitize, trim. intros [H | H].
  - revert H. apply trim_end_head. intros b u. apply trim_start_head.
  - revert H. apply trim_end_last.
Qed.

Lemma sanitize_trimmed_witness : is_space "&" = false.
Proof.
  apply (sanitize_trimmed "  <b> " "lt;b&gt;" "&").
  left. vm_compute. reflexivity.
Defined.

(** ** The array around the record that a handler updates *)

Section UpdateFirst.
Context {A : Type} (p : A → bool) (f : A → A).

Lemma update_first_length (l : list A) :
  length (update_first p f l) = length l.
Proof.
  induction l as [|x t IH]; cbn; [reflexivity|].
  destruct (p x); cbn; congruence.
Qed.

Lemma update_first_others (l : list A) (i : nat) (x : A) :
  l !! i = Some x → p x = false → update_first p f l !! i = Some x.
Proof.
  revert i. induction l as [|y t IH]; intros i; cbn; [discriminate|].
  destruct i as [|i]; cbn.
  - intros [= ->] Hx. rewrite Hx. reflexivity.
  - intros Hi Hx. destruct (p y); cbn; auto.
Qed.

Lemma update_first_idem (l : list A) (r : A) :
  find p l = Some r → p (f r) = true → f (f r) = f r →
  update_first p f (update_first p f l) = update_first p f l.
Proof.
  induction l as [|x t IH]; cbn; [discriminate|].
  destruct (p x) eqn:Hx.
  - intros [= ->] Hp Hf. cbn. rewrite Hp, Hf. reflexivity.
  - intros H1 H2 H3. cbn. rewrite Hx. f_equal. auto.
Qed.

Lemma find_app_new (l : list A) (x : A) :
  find p l = None → p x = true → find p (l ++ [x])%list = Some x.
Proof.
  induction l as [|y t IH]; cbn.
  - intros _ ->. reflexivity.
  - destruct (p y); [discriminate|]. auto.
Qed.

Lemma update_first_app_new (l : list A) (x : A) :
  find p l = None → p x = true →
  update_first p f (l ++ [x])%list = (l ++ [f x])%list.
Proof.
  induction l as [|y t IH]; cbn.
  - intros _ ->. reflexivity.
  - destruct (p y); [discriminate|]. intros H1 H2. f_equal. auto.
Qed.

Lemma filter_app_new (l : list A) (x : A) :
  find p l = None → p x = true →
  List.filter (fun y => negb (p y)) (l ++ [x])%list = l.
Proof.
  intros Hl Hx. rewrite List.filter_app. cbn. rewrite Hx. cbn.
  rewrite (filter_absent _ _ Hl). apply app_nil_r.
Qed.

Lemma find_filter_out (l : list A) :
  find p (List.filter (fun y => negb (p y)) l) = None.
Proof.
  induction l as [|y t IH]; cbn; [reflexivity|].
  destruct (p y) eqn:Hy; cbn; [assumption|]. rewrite Hy. assumption.
Qed.

Lemma filter_shorter (l : list A) (r : A) :
  find p l = Some r →
  length (List.filter (fun y => negb (p y)) l) < length l.
Proof.
  induction l as [|y t IH]; cbn; [discriminate|].
  destruct (p y) eqn:Hy; cbn.
  - intros _. pose proof (List.filter_length_le (fun y => negb (p y)) t). lia.
  - intros H. specialize (IH H). lia.
Qed.
End UpdateFirst.

(** ** More on the vote handler *)

(** X4: a vote request that is not answered with status 200 (400 for a
    missing id or a type other than up, down and none, 404 for an id that
    no record has) leaves the names file as it was. *)
Theorem post_vote_error_leaves_file (b_id b_type req_ip : option string)
    (file : option (list Name.t)) :
  status (post_vote b_id b_type req_ip file).1 ≠ 200 →
  (post_vote b_id b_type req_ip file).2 = file.
Proof.
  unfold post_vote.
  destruct (negb (truthy_ostr b_id) || negb (valid_type b_type)); [reflexivity|].
  destruct (find _ _); [|reflexivity].
  cbn. intros H. destruct H. reflexivity.
Qed.

Lemma post_vote_error_leaves_file_witness :
  (post_vote (Some "1") (Some "sideways") (Some "203.0.113.1") (Some [mia_up])).2
    = Some [mia_up].
Proof.
  apply (post_vote_error_leaves_file (Some "1") (Some "sideways")
           (Some "203.0.113.1") (Some [mia_up])).
  vm_compute. discriminate.
Defined.

(** X5: an accepted vote keeps the length of the collection and every
    record whose id is not the one voted on, at its position. *)
Theorem post_vote_other_records (id type : string) (req_ip : option string)
    (file : option (list Name.t)) (r : Name.t) :
  truthy_str id = true →
  valid_type (Some type) = true →
  find (fun n => id_is n id) (readFile file) = Some r →
  ∃ names',
    (post_vote (Some id) (Some type) req_ip file).2 = Some names'
    ∧ length names' = length (readFile file)
    ∧ ∀ i n, readFile file !! i = Some n → Name.id n ≠ id → names' !! i = Some n.
Proof.
  intros Hid Hty Hfind. rewrite (post_vote_found _ _ _ _ _ Hid Hty Hfind).
  eexists. split; [reflexivity|]. split.
  - apply update_first_length.
  - intros i n Hi Hn. apply update_first_others; [assumption|].
    unfold id_is, Name_identified. apply bool_decide_eq_false_2. assumption.
Qed.

Lemma post_vote_other_records_witness :
  ∃ names',
    (post_vote (Some "2") (Some "up") (Some "203.0.113.1")
       (Some [mia_up; Name.mk "2" "Noah" (Some 0%Z) (Some 0%Z) (LArray [])])).2
      = Some names'
    ∧ length names'
      = length (readFile (Some [mia_up; Name.mk "2" "Noah" (Some 0%Z) (Some 0%Z) (LArray [])]))
    ∧ ∀ i n,
        readFile (Some [mia_up; Name.mk "2" "Noah" (Some 0%Z) (Some 0%Z) (LArray [])]) !! i
          = Some n →
        Name.id n ≠ "2" → names' !! i = Some n.
Proof.
  apply (post_vote_other_records "2" "up" (Some "203.0.113.1")
           (Some [mia_up; Name.mk "2" "Noah" (Some 0%Z) (Some 0%Z) (LArray [])])
           (Name.mk "2" "Noah" (Some 0%Z) (Some 0%Z) (LArray []))).
  - reflexivity.
  - reflexivity.
  - reflexivity.
Defined.

(** The counters after one vote, whoever votes and whatever the type. *)
Lemma applyVote_counters (ip type : string) (n : Name.t) :
  (0 ≤ or0 (Name.votes n))%Z →
  (0 ≤ or0 (Name.dislikes n))%Z →
  (0 ≤ or0 (Name.votes (applyVote ip type n)))%Z
  ∧ (0 ≤ or0 (Name.dislikes (applyVote ip type n)))%Z
  ∧ (or0 (Name.votes n) - 1 ≤ or0 (Name.votes (applyVote ip type n))
       ≤ or0 (Name.votes n) + 1)%Z
  ∧ (or0 (Name.dislikes n) - 1 ≤ or0 (Name.dislikes (applyVote ip type n))
       ≤ or0 (Name.dislikes n) + 1)%Z.
Proof.
  destruct n as [i nm v d l]. cbn [Name.votes Name.dislikes].
  intros Hv Hd. unfold applyVote. rewrite removeOld_js_get.
  unfold applyNew, removeOwn. cbn.
  destruct (bool_decide (ip ≠ "unknown") && truthy_ostr (convert l !! ip));
    repeat case_bool_decide; cbn; unfold or0 in *; cbn; lia.
Qed.

(** X6: non-negative counters stay non-negative under a vote, and a vote
    moves each counter by at most 1. *)
Theorem applyVote_counters_bounded (ip type : string) (n : Name.t) :
  (0 ≤ or0 (Name.votes n))%Z →
  (0 ≤ or0 (Name.dislikes n))%Z →
  (0 ≤ or0 (Name.votes (applyVote ip type n)))%Z
  ∧ (0 ≤ or0 (Name.dislikes (applyVote ip type n)))%Z
  ∧ (Z.abs (or0 (Name.votes (applyVote ip type n)) - or0 (Name.votes n)) ≤ 1)%Z
  ∧ (Z.abs (or0 (Name.dislikes (applyVote ip type n)) - or0 (Name.dislikes n)) ≤ 1)%Z.
Proof.
  intros Hv Hd. destruct (applyVote_counters ip type n Hv Hd) as (H1 & H2 & H3 & H4).
  repeat split; lia.
Qed.

Lemma applyVote_counters_bounded_witness :
  (0 ≤ or0 (Name.votes (applyVote "203.0.113.1" "down" mia_up)))%Z
  ∧ (0 ≤ or0 (Name.dislikes (applyVote "203.0.113.1" "down" mia_up)))%Z
  ∧ (Z.abs (or0 (Name.votes (applyVote "203.0.113.1" "down" mia_up))
            - or0 (Name.votes mia_up)) ≤ 1)%Z
  ∧ (Z.abs (or0 (Name.dislikes (applyVote "203.0.113.1" "down" mia_up))
            - or0 (Name.dislikes mia_up)) ≤ 1)%Z.
Proof.
  apply (applyVote_counters_bounded "203.0.113.1" "down" mia_up).
  - simpl. lia.
  - simpl. lia.
Defined.

(** X7: a vote changes the ledger entry of the voter only: the entry is
    removed for none and becomes the type voted otherwise, except that
    the voter [__proto__] without an entry of its own in the converted
    ledger is left without one; the entry of every other identity is the
    one of the converted ledger. *)
Theorem applyVote_ledger_entries (ip type : string) (n : Name.t) :
  convert (Name.votedIPs (applyVote ip type n)) !! ip
    = (if bool_decide (type = "none") then None
       else if bool_decide (ip = "__proto__")
               && bool_decide (convert (Name.votedIPs n) !! ip = None)
            then None
            else Some type)
  ∧ ∀ k, k ≠ ip →
      convert (Name.votedIPs (applyVote ip type n)) !! k
        = convert (Name.votedIPs n) !! k.
Proof.
  rewrite applyVote_ledger. cbn [convert]. split.
  - case_bool_decide; [apply lookup_delete_eq|].
    unfold js_set.
    destruct (bool_decide (ip = "__proto__")
              && bool_decide (convert (Name.votedIPs n) !! ip = None)) eqn:E.
    + apply andb_true_iff in E as [_ E]. apply bool_decide_eq_true_1 in E. exact E.
    + apply lookup_insert_eq.
  - intros k Hk. case_bool_decide.
    + apply lookup_delete_ne. congruence.
    + apply js_set_lookup_ne. exact Hk.
Qed.

Lemma readFile_writeFile {A : Type} (l : list A) : readFile (writeFile l) = l.
Proof. reflexivity. Qed.

Lemma readFile_Some {A : Type} (l : list A) : readFile (Some l) = l.
Proof. reflexivity. Qed.

Lemma applyVote_up_positive (ip : string) (n : Name.t) :
  (0 ≤ or0 (Name.votes n))%Z →
  (1 ≤ or0 (Name.votes (applyVote ip "up" n)))%Z.
Proof.
  destruct n as [i nm v d l]. cbn [Name.votes]. intros Hv.
  unfold applyVote. rewrite removeOld_js_get. unfold applyNew, removeOwn. cbn.
  destruct (bool_decide (ip ≠ "unknown") && truthy_ostr (convert l !! ip));
    decide_literals; cbn; unfold or0 in *; cbn; lia.
Qed.

Lemma applyVote_down_positive (ip : string) (n : Name.t) :
  (0 ≤ or0 (Name.dislikes n))%Z →
  (1 ≤ or0 (Name.dislikes (applyVote ip "down" n)))%Z.
Proof.
  destruct n as [i nm v d l]. cbn [Name.dislikes]. intros Hd.
  unfold applyVote. rewrite removeOld_js_get. unfold applyNew, removeOwn. cbn.
  destruct (bool_decide (ip ≠ "unknown") && truthy_ostr (convert l !! ip));
    decide_literals; cbn; unfold or0 in *; cbn; lia.
Qed.

Lemma applyVote_idem (ip type : string) (n : Name.t) :
  ip ≠ "unknown" →
  ip ≠ "__proto__" →
  valid_type (Some type) = true →
  (0 ≤ or0 (Name.votes n))%Z →
  (0 ≤ or0 (Name.dislikes n))%Z →
  applyVote ip type (applyVote ip type n) = applyVote ip type n.
Proof.
  intros Hip Hproto Hty Hv Hd.
  pose proof (applyVote_ledger ip type n) as Hl.
  rewrite (js_set_other _ _ _ Hproto) in Hl.
  destruct (valid_type_cases _ Hty) as [-> | [-> | ->]].
  - rewrite bool_decide_eq_false_2 in Hl by discriminate.
    apply (applyVote_same_choice _ _ _ _ Hl Hip); [apply lookup_insert_eq|].
    left. split; [reflexivity|]. apply applyVote_up_positive; assumption.
  - rewrite bool_decide_eq_false_2 in Hl by discriminate.
    apply (applyVote_same_choice _ _ _ _ Hl Hip); [apply lookup_insert_eq|].
    right. split; [reflexivity|]. apply applyVote_down_positive; assumption.
  - rewrite bool_decide_eq_true_2 in Hl by reflexivity.
    apply (applyVote_none_absent _ _ _ Hl). apply lookup_delete_eq.
Qed.

(** For the caller [__proto__] the second "up" is counted again. *)
Example proto_vote_not_idempotent :
  map Name.votes
    (readFile (post_vote (Some "1") (Some "up") (Some "__proto__") (Some [mia_clear])).2)
    = [Some 1%Z]
  ∧ map Name.votes
      (readFile (post_vote (Some "1") (Some "up") (Some "__proto__")
                   (post_vote (Some "1") (Some "up") (Some "__proto__")
                      (Some [mia_clear])).2).2)
    = [Some 2%Z].
Proof. split; vm_compute; reflexivity. Qed.

(** X8: a vote request of a resolvable caller other than [__proto__], on a
    record whose counters are not negative, is idempotent: sent a second
    time, it gets the same answer and leaves the names file as the first
    one left it. *)
Theorem post_vote_idempotent (id type ip : string)
    (file : option (list Name.t)) (r : Name.t) :
  truthy_str id = true →
  valid_type (Some type) = true →
  truthy_str ip = true →
  ip ≠ "unknown" →
  ip ≠ "__proto__" →
  find (fun n => id_is n id) (readFile file) = Some r →
  (0 ≤ or0 (Name.votes r))%Z →
  (0 ≤ or0 (Name.dislikes r))%Z →
  post_vote (Some id) (Some type) (Some ip)
    (post_vote (Some id) (Some type) (Some ip) file).2
  = post_vote (Some id) (Some type) (Some ip) file.
Proof.
  intros Hid Hty Hip Hknown Hproto Hfind Hv Hd.
  pose proof (applyVote_idem ip type r Hknown Hproto Hty Hv Hd) as Hidem.
  assert (Hp : id_is (applyVote ip type r) id = true)
    by (rewrite id_is_applyVote; apply (find_some _ _ Hfind)).
  rewrite (post_vote_found _ _ _ _ _ Hid Hty Hfind), (clientIP_resolvable _ Hip).
  cbn [snd].
  rewrite (post_vote_found id type (Some ip) _ (applyVote ip type r) Hid Hty)
    by (rewrite readFile_writeFile; apply find_update_first; assumption).
  rewrite (clientIP_resolvable _ Hip), Hidem, readFile_writeFile.
  rewrite (update_first_idem _ _ _ _ Hfind Hp Hidem). reflexivity.
Qed.

Lemma post_vote_idempotent_witness :
  post_vote (Some "1") (Some "down") (Some "203.0.113.1")
    (post_vote (Some "1") (Some "down") (Some "203.0.113.1") (Some [mia_up])).2
  = post_vote (Some "1") (Some "down") (Some "203.0.113.1") (Some [mia_up]).
Proof.
  apply (post_vote_idempotent "1" "down" "203.0.113.1" (Some [mia_up]) mia_up).
  - reflexivity.
  - reflexivity.
  - reflexivity.
  - discriminate.
  - discriminate.
  - reflexivity.
  - simpl. lia.
  - simpl. lia.
Defined.

(** ** Suggesting a name *)

(** X9: a name just suggested can be voted on at once: when the name is a
    string of the ASCII range and no stored record has the id given to
    the new one, the first "up" on that id of a caller with an address
    other than [__proto__] is answered with status 200 and the record
    with votes 1, dislikes 0 and the caller as the only entry of the
    ledger, and the records stored before are kept in front of it. *)
Theorem post_names_then_vote (now name ip : string) (file : option (list Name.t)) :
  truthy_str name = true →
  is_ascii name = true →
  Nat.ltb 50 (String.length name) = false →
  truthy_str now = true →
  truthy_str ip = true →
  ip ≠ "__proto__" →
  find (fun n => id_is n now) (readFile file) = None →
  post_vote (Some now) (Some "up") (Some ip)
    (post_names now (Some name) file).2
  = (mkResponse 200
       (BRecord (Name.mk now (sanitize name) (Some 1%Z) (Some 0%Z)
                   (LObject {[ ip := "up" ]}))),
     Some (readFile file
           ++ [Name.mk now (sanitize name) (Some 1%Z) (Some 0%Z)
                 (LObject {[ ip := "up" ]})])%list).
Proof.
  intros Hname _ Hlen Hnow Hip Hproto Hfresh.
  assert (Hnew : id_is (newName now (sanitize name)) now = true)
    by (apply bool_decide_eq_true_2; reflexivity).
  assert (E : (post_names now (Some name) file).2
              = Some (readFile file ++ [newName now (sanitize name)])%list).
  { unfold post_names. cbn [truthy_ostr default id]. rewrite Hname. cbn [negb].
    rewrite Hlen. reflexivity. }
  rewrite E.
  rewrite (post_vote_found now "up" (Some ip) _ (newName now (sanitize name)) Hnow eq_refl)
    by (rewrite readFile_Some; apply find_app_new; assumption).
  rewrite (clientIP_resolvable _ Hip), readFile_Some.
  rewrite (update_first_app_new _ _ _ _ Hfresh Hnew).
  assert (Hvote : applyVote ip "up" (newName now (sanitize name))
                  = Name.mk now (sanitize name) (Some 1%Z) (Some 0%Z)
                      (LObject {[ ip := "up" ]})).
  { change (newName now (sanitize name))
      with (Name.mk now (sanitize name) (Some 0%Z) (Some 0%Z) (LArray [])).
    change (applyVote ip "up" (Name.mk now (sanitize name) (Some 0%Z) (Some 0%Z) (LArray [])))
      with (applyVote ip "up" (Name.mk now (sanitize name) (Some 0%Z) (Some 0%Z) (LObject ∅))).
    rewrite (applyVote_up_first _ _ _ _ _ _ Hproto (lookup_empty ip)).
    rewrite insert_empty. reflexivity. }
  rewrite Hvote. reflexivity.
Qed.

Lemma post_names_then_vote_witness :
  post_vote (Some "2") (Some "up") (Some "203.0.113.1")
    (post_names "2" (Some "Noah") (Some [mia_up])).2
  = (mkResponse 200
       (BRecord (Name.mk "2" (sanitize "Noah") (Some 1%Z) (Some 0%Z)
                   (LObject {[ "203.0.113.1" := "up" ]}))),
     Some (readFile (Some [mia_up])
           ++ [Name.mk "2" (sanitize "Noah") (Some 1%Z) (Some 0%Z)
                 (LObject {[ "203.0.113.1" := "up" ]})])%list).
Proof.
  apply (post_names_then_vote "2" "Noah" "203.0.113.1" (Some [mia_up])).
  - reflexivity.
  - reflexivity.
  - reflexivity.
  - reflexivity.
  - reflexivity.
  - discriminate.
  - reflexivity.
Defined.

(** X10: suggesting a name and deleting it again restores the array of
    names, when no stored record has the id given to the new one. *)
Theorem post_names_then_delete (ADMIN_PIN now name : string)
    (file : option (list Name.t)) :
  truthy_str name = true →
  Nat.ltb 50 (String.length name) = false →
  find (fun n => id_is n now) (readFile file) = None →
  delete_names ADMIN_PIN (Some ADMIN_PIN) now (post_names now (Some name) file).2
    = (mkResponse 200 BSuccess, Some (readFile file)).
Proof.
  intros Hname Hlen Hfresh.
  assert (E : (post_names now (Some name) file).2
              = Some (readFile file ++ [newName now (sanitize name)])%list).
  { unfold post_names. cbn [truthy_ostr default id]. rewrite Hname. cbn [negb].
    rewrite Hlen. reflexivity. }
  rewrite E. unfold delete_names. rewrite authorized_pin. cbn [negb].
  rewrite readFile_Some, (filter_app_new _ _ _ Hfresh); [reflexivity|].
  apply bool_decide_eq_true_2. reflexivity.
Qed.

Lemma post_names_then_delete_witness :
  delete_names "2026" (Some "2026") "2" (post_names "2" (Some "Noah") (Some [mia_up])).2
    = (mkResponse 200 BSuccess, Some (readFile (Some [mia_up]))).
Proof.
  apply (post_names_then_delete "2026" "2" "Noah" (Some [mia_up])); reflexivity.
Defined.

(** ** The admin PIN *)

(** X11: without the admin PIN (no header, or another value) the four
    delete handlers and the creation of a wishlist item answer 401 and
    change neither their file nor the uploads directory, whatever else the
    request holds; [verify-pin] answers 401 as well. *)
Theorem unauthorized_changes_nothing (ADMIN_PIN : string)
    (url_protocol : string → option string) (pin : option string)
    (id now iso : string) (b : WishBody)
    (names : option (list Name.t)) (wishlist : option (list Wish.t))
    (bets : option (list Bet.t)) (offers : option (list (gmap string json)))
    (uploads : gset string) :
  pin ≠ Some ADMIN_PIN →
  delete_names ADMIN_PIN pin id names = (mkResponse 401 (BError "Unauthorized"), names)
  ∧ delete_wishlist ADMIN_PIN pin id wishlist
    = (mkResponse 401 (BError "Unauthorized"), wishlist)
  ∧ delete_bets ADMIN_PIN pin id bets = (mkResponse 401 (BError "Unauthorized"), bets)
  ∧ delete_offers ADMIN_PIN pin id offers uploads
    = (mkResponse 401 (BError "Unauthorized"), offers, uploads)
  ∧ post_wishlist ADMIN_PIN url_protocol now iso pin b wishlist
    = (mkResponse 401 (BError "Unauthorized"), wishlist)
  ∧ verify_pin ADMIN_PIN pin = mkResponse 401 (BError "Unauthorized").
Proof.
  intros Hpin.
  assert (E : authorized ADMIN_PIN pin = false)
    by (apply bool_decide_eq_false_2; assumption).
  unfold delete_names, delete_wishlist, delete_bets, delete_offers, post_wishlist,
    verify_pin.
  rewrite E. cbn [negb]. repeat split; reflexivity.
Qed.

Lemma unauthorized_changes_nothing_witness :
  delete_names "2026" None "1" (Some [mia_up])
    = (mkResponse 401 (BError "Unauthorized"), Some [mia_up]).
Proof.
  apply (unauthorized_changes_nothing "2026" (fun _ => None) None "1" "2" "T"
           (mkWishBody None None None None) (Some [mia_up]) None None None ∅).
  discriminate.
Defined.

(** ** Deleting a record that is there *)

Lemma filter_out_spec {A : Type} (p : A → bool) (l : list A) :
  find p (List.filter (fun y => negb (p y)) l) = None
  ∧ (∀ x, x ∈ l → p x = false → x ∈ List.filter (fun y => negb (p y)) l)
  ∧ (∀ x, x ∈ List.filter (fun y => negb (p y)) l → x ∈ l).
Proof.
  split; [apply find_filter_out|]. split.
  - intros x Hx Hp. apply list_elem_of_In, List.filter_In.
    split; [apply list_elem_of_In; assumption|]. rewrite Hp. reflexivity.
  - intros x Hx. apply list_elem_of_In.
    apply list_elem_of_In, List.filter_In in Hx. tauto.
Qed.

(** X12: with the admin PIN, deleting an id that the wishlist (resp. the
    bets) holds is answered with status 200; the array stored afterwards
    holds no record with that id, is shorter, keeps every other record
    and holds nothing new. *)
Theorem delete_present_removes (ADMIN_PIN id : string)
    (wishlist : option (list Wish.t)) (bets : option (list Bet.t))
    (w : Wish.t) (b : Bet.t) :
  find (fun i => id_is i id) (readFile wishlist) = Some w →
  find (fun i => id_is i id) (readFile bets) = Some b →
  (∃ list',
     delete_wishlist ADMIN_PIN (Some ADMIN_PIN) id wishlist
       = (mkResponse 200 BSuccess, Some list')
     ∧ find (fun i => id_is i id) list' = None
     ∧ length list' < length (readFile wishlist)
     ∧ (∀ x, x ∈ readFile wishlist → Wish.id x ≠ id → x ∈ list')
     ∧ (∀ x, x ∈ list' → x ∈ readFile wishlist))
  ∧ (∃ list',
       delete_bets ADMIN_PIN (Some ADMIN_PIN) id bets
         = (mkResponse 200 BSuccess, Some list')
       ∧ find (fun i => id_is i id) list' = None
       ∧ length list' < length (readFile bets)
       ∧ (∀ x, x ∈ readFile bets → Bet.id x ≠ id → x ∈ list')
       ∧ (∀ x, x ∈ list' → x ∈ readFile bets)).
Proof.
  intros Hw Hb. split.
  - pose proof (filter_shorter _ _ _ Hw) as Hlt.
    destruct (filter_out_spec (fun i : Wish.t => id_is i id) (readFile wishlist))
      as (H1 & H2 & H3).
    eexists. split; [|split; [exact H1|split; [exact Hlt|split; [|exact H3]]]].
    + unfold delete_wishlist. rewrite authorized_pin. cbn [negb].
      rewrite (proj2 (Nat.eqb_neq _ _)) by lia. reflexivity.
    + intros x Hx Hid. apply H2; [assumption|].
      apply bool_decide_eq_false_2. assumption.
  - pose proof (filter_shorter _ _ _ Hb) as Hlt.
    destruct (filter_out_spec (fun i : Bet.t => id_is i id) (readFile bets))
      as (H1 & H2 & H3).
    eexists. split; [|split; [exact H1|split; [exact Hlt|split; [|exact H3]]]].
    + unfold delete_bets. rewrite authorized_pin. cbn [negb].
      rewrite (proj2 (Nat.eqb_neq _ _)) by lia. reflexivity.
    + intros x Hx Hid. apply H2; [assumption|].
      apply bool_decide_eq_false_2. assumption.
Qed.

(** X13: with the admin PIN, deleting a name is always answered with
    status 200; the array stored afterwards holds no record with the id,
    keeps every other record and holds nothing new. *)
Theorem delete_names_removes (ADMIN_PIN id : string) (file : option (list Name.t)) :
  ∃ names',
    delete_names ADMIN_PIN (Some ADMIN_PIN) id file
      = (mkResponse 200 BSuccess, Some names')
    ∧ find (fun n => id_is n id) names' = None
    ∧ (∀ x, x ∈ readFile file → Name.id x ≠ id → x ∈ names')
    ∧ (∀ x, x ∈ names' → x ∈ readFile file).
Proof.
  destruct (filter_out_spec (fun n : Name.t => id_is n id) (readFile file))
    as (H1 & H2 & H3).
  eexists. split; [|split; [exact H1|split; [|exact H3]]].
  - unfold delete_names. rewrite authorized_pin. reflexivity.
  - intros x Hx Hid. apply H2; [assumption|].
    apply bool_decide_eq_false_2. assumption.
Qed.

Lemma delete_present_removes_witness :
  ∃ list',
    delete_wishlist "2026" (Some "2026") "10" (Some [crib])
      = (mkResponse 200 BSuccess, Some list')
    ∧ find (fun i => id_is i "10") list' = None
    ∧ length list' < length (readFile (Some [crib]))
    ∧ (∀ x, x ∈ readFile (Some [crib]) → Wish.id x ≠ "10" → x ∈ list')
    ∧ (∀ x, x ∈ list' → x ∈ readFile (Some [crib])).
Proof.
  apply (delete_present_removes "2026" "10" (Some [crib]) (Some [guess; Bet.mk
           "10" "Other" "2026-08-21" "12:00" (Int 3000) (Int 48) "T"]) crib
           (Bet.mk "10" "Other" "2026-08-21" "12:00" (Int 3000) (Int 48) "T")).
  - reflexivity.
  - reflexivity.
Defined.

(** ** Deleting an offer *)

Lemma substring_all (s : string) : String.substring 0 (String.length s) s = s.
Proof. induction s as [|a s IH]; cbn; [reflexivity|]. rewrite IH. reflexivity. Qed.

Lemma prefix_app (p f : string) : String.prefix p (p ++ f) = true.
Proof.
  induction p as [|a p IH]; [destruct f; reflexivity|].
  change (String a p ++ f) with (String a (p ++ f)). cbn [String.prefix].
  destruct (ascii_dec a a); [exact IH | congruence].
Qed.

Lemma substring_after (p f : string) :
  String.substring (String.length p) (String.length (p ++ f) - String.length p) (p ++ f)
    = f.
Proof.
  induction p as [|a p IH].
  - change (EmptyString ++ f) with f. cbn [String.length].
    rewrite Nat.sub_0_r. apply substring_all.
  - change (String a p ++ f) with (String a (p ++ f)). exact IH.
Qed.

Lemma replace_first_at_start (a : ascii) (p rep f : string) :
  replace_first (String a p) rep (String a p ++ f) = rep ++ f.
Proof.
  change (String a p ++ f) with (String a (p ++ f)). cbn [replace_first].
  change (String a (p ++ f)) with (String a p ++ f).
  rewrite prefix_app, substring_after. reflexivity.
Qed.

Lemma replace_first_uploads (f : string) :
  replace_first "/uploads/" EmptyString ("/uploads/" ++ f) = f.
Proof. apply (replace_first_at_start "/" "uploads/" EmptyString f). Qed.

(** X14: with the admin PIN, deleting an offer that is stored, whose
    [imageUrl] is [/uploads/] followed by a plain file name (no [/] in
    it), is answered with status 200; the array stored afterwards holds no
    offer with that id, and the uploads directory has lost that file and
    no other. *)
Theorem delete_offers_removes (ADMIN_PIN id f : string)
    (file : option (list (gmap string json))) (uploads : gset string)
    (item : gmap string (option json)) :
  find (fun o => id_is o id) (readOffers file) = Some item →
  item !! "imageUrl" = Some (Some (JStr ("/uploads/" ++ f))) →
  occurs "/" f = false →
  ∃ offers',
    delete_offers ADMIN_PIN (Some ADMIN_PIN) id file uploads
      = (mkResponse 200 BSuccess, Some offers', uploads ∖ {[ f ]})
    ∧ find (fun o => id_is o id) (parsed <$> offers') = None
    ∧ (f ∉ uploads ∖ {[ f ]})
    ∧ (∀ g, g ≠ f → (g ∈ uploads ∖ {[ f ]} ↔ g ∈ uploads)).
Proof.
  intros Hfind Hurl _. eexists. split; [|split; [|split]].
  - unfold delete_offers. rewrite authorized_pin. cbn [negb].
    rewrite Hfind. unfold unlink_image. rewrite Hurl, replace_first_uploads.
    reflexivity.
  - unfold readOffers.
    rewrite <- list_fmap_compose.
    rewrite (list_fmap_ext (parsed ∘ stringify) (fun o => o)
               (List.filter (fun o => negb (id_is o id)) (parsed <$> readFile file))).
    + rewrite list_fmap_id. apply find_filter_out.
    + intros i o Ho. cbn.
      apply list_elem_of_lookup_2, list_elem_of_In, List.filter_In in Ho as [Ho _].
      apply list_elem_of_In, list_elem_of_fmap in Ho as (o' & -> & _).
      rewrite stringify_parsed. reflexivity.
  - rewrite elem_of_difference, elem_of_singleton. tauto.
  - intros g Hg. rewrite elem_of_difference, elem_of_singleton. tauto.
Qed.

Lemma delete_offers_removes_witness :
  ∃ offers',
    delete_offers "2026" (Some "2026") "30" (Some [pram]) {[ "30.jpg"; "31.jpg" ]}
      = (mkResponse 200 BSuccess, Some offers',
         ({[ "30.jpg"; "31.jpg" ]} : gset string) ∖ {[ "30.jpg" ]})
    ∧ find (fun o => id_is o "30") (parsed <$> offers') = None
    ∧ ("30.jpg" ∉ ({[ "30.jpg"; "31.jpg" ]} : gset string) ∖ {[ "30.jpg" ]})
    ∧ (∀ g, g ≠ "30.jpg" →
         (g ∈ ({[ "30.jpg"; "31.jpg" ]} : gset string) ∖ {[ "30.jpg" ]}
          ↔ g ∈ ({[ "30.jpg"; "31.jpg" ]} : gset string))).
Proof.
  apply (delete_offers_removes "2026" "30" "30.jpg" (Some [pram])
           {[ "30.jpg"; "31.jpg" ]} (parsed pram)).
  - vm_compute. reflexivity.
  - vm_compute. reflexivity.
  - reflexivity.
Defined.

(** ** Reserving a wishlist item *)

(** X15: a reservation request on an item that is stored, sent with a
    [reservedBy] that is absent or a string of the ASCII range, is
    answered with status 200 and the item with its [reserved] flag
    flipped; the item is reserved exactly when its [reservedBy] holds a
    name, which is never the empty string (a missing or blank name is
    stored as "Anonymous"), and the other fields are as they were. *)
Theorem post_reserve_toggles (id : string) (reservedBy : option string)
    (file : option (list Wish.t)) (item : Wish.t) :
  truthy_str id = true →
  is_ascii_opt reservedBy = true →
  find (fun i => id_is i id) (readFile file) = Some item →
  ∃ item',
    post_reserve (Some id) reservedBy file
      = (mkResponse 200 (BRecord item'),
         Some (update_first (fun i => id_is i id) (fun _ => item') (readFile file)))
    ∧ Wish.reserved item' = negb (Wish.reserved item)
    ∧ (if Wish.reserved item'
       then ∃ who, Wish.reservedBy item' = Some who ∧ truthy_str who = true
       else Wish.reservedBy item' = None)
    ∧ Wish.id item' = Wish.id item ∧ Wish.name item' = Wish.name item
    ∧ Wish.link item' = Wish.link item ∧ Wish.price item' = Wish.price item
    ∧ Wish.note item' = Wish.note item ∧ Wish.date item' = Wish.date item.
Proof.
  intros Hid _ Hfind. exists (toggle (sanitize_opt reservedBy) item).
  split; [|split; [reflexivity|split; [|repeat split]]].
  - unfold post_reserve. cbn [truthy_ostr default Datatypes.id]. rewrite Hid. cbn [negb].
    rewrite Hfind, (update_first_found _ _ _ _ Hfind). reflexivity.
  - unfold toggle. cbn [Wish.reserved Wish.reservedBy].
    destruct (negb (Wish.reserved item)); [|reflexivity].
    destruct (truthy_ostr (sanitize_opt reservedBy)) eqn:E.
    + destruct (sanitize_opt reservedBy) as [who|]; [|discriminate].
      exists who. split; [reflexivity | exact E].
    + exists "Anonymous". split; reflexivity.
Qed.

Lemma post_reserve_toggles_witness :
  ∃ item',
    post_reserve (Some "10") (Some "  ") (Some [crib])
      = (mkResponse 200 (BRecord item'),
         Some (update_first (fun i => id_is i "10") (fun _ => item')
                 (readFile (Some [crib]))))
    ∧ Wish.reserved item' = negb (Wish.reserved crib)
    ∧ (if Wish.reserved item'
       then ∃ who, Wish.reservedBy item' = Some who ∧ truthy_str who = true
       else Wish.reservedBy item' = None)
    ∧ Wish.id item' = Wish.id crib ∧ Wish.name item' = Wish.name crib
    ∧ Wish.link item' = Wish.link crib ∧ Wish.price item' = Wish.price crib
    ∧ Wish.note item' = Wish.note crib ∧ Wish.date item' = Wish.date crib.
Proof.
  apply (post_reserve_toggles "10" (Some "  ") (Some [crib]) crib); reflexivity.
Defined.

Lemma toggle_twice (rb1 rb2 : option string) (item : Wish.t) :
  Wish.reserved item = false →
  Wish.reservedBy item = None →
  toggle rb2 (toggle rb1 item) = item.
Proof.
  destruct item as [i n l p nt r rb d]. cbn. intros -> ->. reflexivity.
Qed.

Lemma update_first_twice {A : Type} (p : A → bool) (f g : A → A) (l : list A) (r : A) :
  find p l = Some r → p (f r) = true → g (f r) = r →
  update_first p g (update_first p f l) = l.
Proof.
  induction l as [|x t IH]; cbn; [discriminate|].
  destruct (p x) eqn:Hx.
  - intros [= ->] Hp Hg. cbn. rewrite Hp, Hg. reflexivity.
  - intros H1 H2 H3. cbn. rewrite Hx. f_equal. auto.
Qed.

(** X16: reserving an item that is not reserved and then sending a second
    reservation request for it (whatever names the two requests carry)
    un-reserves it: the second answer is the item as it was, with
    [reserved] false and no [reservedBy], and the wishlist file is back to
    what it was. *)
Theorem post_reserve_twice (id : string) (rb1 rb2 : option string)
    (file : option (list Wish.t)) (item : Wish.t) :
  truthy_str id = true →
  find (fun i => id_is i id) (readFile file) = Some item →
  Wish.reserved item = false →
  Wish.reservedBy item = None →
  post_reserve (Some id) rb2 (post_reserve (Some id) rb1 file).2
    = (mkResponse 200 (BRecord item), file).
Proof.
  intros Hid Hfind Hr Hrb.
  assert (Hp : id_is (toggle (sanitize_opt rb1) item) id = true)
    by (apply (find_some _ _ Hfind)).
  assert (E1 : (post_reserve (Some id) rb1 file).2
               = Some (update_first (fun i => id_is i id)
                         (toggle (sanitize_opt rb1)) (readFile file))).
  { unfold post_reserve. cbn [truthy_ostr default Datatypes.id]. rewrite Hid. cbn [negb].
    rewrite Hfind. reflexivity. }
  rewrite E1. unfold post_reserve. cbn [truthy_ostr default Datatypes.id]. rewrite Hid.
  cbn [negb]. rewrite readFile_Some.
  rewrite (find_update_first _ _ _ _ Hfind Hp).
  rewrite (toggle_twice _ _ _ Hr Hrb).
  rewrite (update_first_twice _ _ _ _ _ Hfind Hp (toggle_twice _ _ _ Hr Hrb)).
  rewrite (find_readFile _ _ _ Hfind) at 2. reflexivity.
Qed.

Lemma post_reserve_twice_witness :
  post_reserve (Some "10") None
    (post_reserve (Some "10") (Some "Grandma") (Some [crib])).2
    = (mkResponse 200 (BRecord crib), Some [crib]).
Proof.
  apply (post_reserve_twice "10" (Some "Grandma") None (Some [crib]) crib);
    reflexivity.
Defined.

(** ** Bets with numbers *)

Section Numerals.
Local Open Scope Z_scope.

Lemma digits_string_of_uint (d : Decimal.uint) (acc : Z) :
  digits 10 (NilEmpty.string_of_uint d) (Some acc) = Some (uint_value d acc).
Proof.
  revert acc. induction d; intros acc; cbn [NilEmpty.string_of_uint uint_value];
    [reflexivity | ..]; cbn [digits]; apply IHd.
Qed.

Lemma of_uint_acc_value (d : Decimal.uint) (acc : positive) :
  Z.pos (Pos.of_uint_acc d acc) = uint_value d (Z.pos acc).
Proof.
  revert acc. induction d; intros acc; cbn [Pos.of_uint_acc uint_value];
    [reflexivity | ..]; rewrite IHd; f_equal; lia.
Qed.

Lemma of_uint_value (d : Decimal.uint) : Z.of_uint d = uint_value d 0.
Proof.
  unfold Z.of_uint.
  induction d; cbn [Pos.of_uint uint_value]; [reflexivity | exact IHd | ..];
    cbn [Z.of_N]; rewrite of_uint_acc_value; reflexivity.
Qed.

(** Evaluates the tests of [parseInt] on the characters at hand. *)
Ltac eval_chars :=
  repeat match goal with
    | |- context [is_space ?c] =>
        let b := eval vm_compute in (is_space c) in change (is_space c) with b
    | |- context [digit_of ?R ?c] =>
        let b := eval vm_compute in (digit_of R c) in change (digit_of R c) with b
    end.

Lemma parseInt_string_of_uint (d : Decimal.uint) :
  parseInt_string (NilZero.string_of_uint d) = Int (uint_value d 0)
  ∧ parseInt_string (String "-" (NilZero.string_of_uint d)) = Int (- uint_value d 0).
Proof.
  destruct d as [|d|d|d|d|d|d|d|d|d|d]; [split; reflexivity | ..];
    destruct d; unfold parseInt_string;
    cbn [NilZero.string_of_uint NilEmpty.string_of_uint trim_start];
    eval_chars; cbn -[uint_value digits Z.mul Z.opp Z.add];
    cbn [digits]; eval_chars; cbn -[uint_value digits Z.mul Z.opp Z.add];
    rewrite ?digits_string_of_uint; cbn [uint_value or0 default];
    split; f_equal; lia.
Qed.

Lemma parseInt_integer (z : Z) : parseInt (JNum z) = Int z.
Proof.
  unfold parseInt. cbn [toString]. unfold string_of_Z.
  rewrite <- (DecimalZ.of_to z) at 2.
  destruct (Z.to_int z) as [d | d]; cbn [NilZero.string_of_int Z.of_int];
    rewrite of_uint_value; apply parseInt_string_of_uint.
Qed.
End Numerals.

(** X17: a bet sent with a name and a date that are strings, a time that
    is a string or absent, and non-zero integers for weight and size that
    are below 2^53 in magnitude (the integers that a number holds
    exactly, and that are distinct as numbers) is created with status 201
    and stored with exactly those two integers: the decimal numeral that
    [parseInt] reads is the one of the number sent. *)
Theorem post_bets_integers (now iso name date : string) (time : option string)
    (w s : Z) (file : option (list Bet.t)) :
  truthy_str name = true →
  Nat.ltb 50 (String.length name) = false →
  truthy_str date = true →
  w ≠ 0%Z → (Z.abs w < 2 ^ 53)%Z →
  s ≠ 0%Z → (Z.abs s < 2 ^ 53)%Z →
  ∃ bet : Bet.t,
    post_bets now iso
      (mkBetBody (Some name) (Some date) time (Some (JNum w)) (Some (JNum s))) file
      = (mkResponse 201 (BRecord bet), Some (readFile file ++ [bet])%list)
    ∧ Bet.weight bet = Int w
    ∧ Bet.size bet = Int s.
Proof.
  intros Hname Hlen Hdate Hw _ Hs _.
  destruct (post_bets_created now iso
              (mkBetBody (Some name) (Some date) time (Some (JNum w)) (Some (JNum s)))
              file name date (JNum w) (JNum s))
    as (bet & E & Ew & Es); try reflexivity; try assumption.
  - cbn. apply negb_true_iff, Z.eqb_neq. assumption.
  - cbn. apply negb_true_iff, Z.eqb_neq. assumption.
  - exists bet. rewrite E, Ew, Es, !parseInt_integer. repeat split.
Qed.

Lemma post_bets_integers_witness :
  ∃ bet : Bet.t,
    post_bets "20" "2026-01-01T00:00:00.000Z"
      (mkBetBody (Some "Tester") (Some "2026-08-20") None
         (Some (JNum 3500)) (Some (JNum 50))) (Some [])
      = (mkResponse 201 (BRecord bet), Some (readFile (Some []) ++ [bet])%list)
    ∧ Bet.weight bet = Int 3500
    ∧ Bet.size bet = Int 50.
Proof.
  apply (post_bets_integers "20" "2026-01-01T00:00:00.000Z" "Tester" "2026-08-20"
           None 3500 50 (Some [])).
  - reflexivity.
  - reflexivity.
  - reflexivity.
  - lia.
  - lia.
  - lia.
  - lia.
Defined.

(** ** Data URLs *)

Lemma strip_prefix_spec (p s r : string) :
  strip_prefix p s = Some r ↔ s = p ++ r.
Proof.
  revert s. induction p as [|a p IH]; intros s.
  - cbn. split; [intros [= ->] | intros ->]; reflexivity.
  - change (String a p ++ r) with (String a (p ++ r)).
    destruct s as [|b s]; cbn [strip_prefix]; [split; discriminate|].
    destruct (decide (a = b)) as [->|Hne].
    + rewrite IH. split; [intros ->; reflexivity | intros [= ->]; reflexivity].
    + split; [discriminate | intros [= -> _]; congruence].
Qed.

Lemma span_mime_app (m r : string) :
  all_mime m = true →
  (∀ a t, r = String a t → is_mime_char a = false) →
  span_mime (m ++ r) = (m, r).
Proof.
  intros Hm Hr. induction m as [|a m IH].
  - change (EmptyString ++ r) with r. destruct r as [|b t]; [reflexivity|].
    cbn [span_mime]. rewrite (Hr b t eq_refl). reflexivity.
  - change (String a m ++ r) with (String a (m ++ r)). cbn [span_mime].
    cbn [all_mime] in Hm. apply andb_true_iff in Hm as [Ha Hm].
    rewrite Ha, (IH Hm). reflexivity.
Qed.

Lemma span_mime_spec (s m r : string) :
  span_mime s = (m, r) →
  s = m ++ r ∧ all_mime m = true ∧ ∀ a t, r = String a t → is_mime_char a = false.
Proof.
  revert m r. induction s as [|a s IH]; intros m r; cbn [span_mime].
  - intros [= <- <-]. repeat split. discriminate.
  - destruct (is_mime_char a) eqn:Ha.
    + destruct (span_mime s) as [m' r'] eqn:E. intros [= <- <-].
      destruct (IH m' r' eq_refl) as (-> & Hm & Hr).
      repeat split; [cbn [all_mime]; rewrite Ha, Hm; reflexivity | exact Hr].
    + intros [= <- <-]. repeat split. intros b t [= <- <-]. exact Ha.
Qed.

(** X18: the pattern of the image of an offer matches exactly the strings
    [data:<mime>;base64,<payload>] whose mime type is a non-empty run of
    letters, [-], [+] and [/] and whose payload is non-empty and holds no
    line terminator; the two groups are the mime type and the payload. *)
Theorem match_data_url_spec (s mime payload : string) :
  match_data_url s = Some (mime, payload)
  ↔ s = "data:" ++ mime ++ ";base64," ++ payload
    ∧ truthy_str mime = true ∧ all_mime mime = true
    ∧ truthy_str payload = true ∧ no_line_terminator payload = true.
Proof.
  unfold match_data_url. split.
  - destruct (strip_prefix "data:" s) as [rest|] eqn:E1; [|discriminate].
    apply strip_prefix_spec in E1 as ->.
    destruct (span_mime rest) as [m r] eqn:E2.
    apply span_mime_spec in E2 as (-> & Hm & _).
    destruct (truthy_str m) eqn:Hmt; cbn [negb]; [|discriminate].
    destruct (strip_prefix ";base64," r) as [p|] eqn:E3; [|discriminate].
    apply strip_prefix_spec in E3 as ->.
    destruct (truthy_str p && no_line_terminator p) eqn:Hp; [|discriminate].
    apply andb_true_iff in Hp as [Hp1 Hp2].
    intros [= <- <-]. repeat split; assumption.
  - intros (-> & Hmt & Hm & Hp1 & Hp2).
    rewrite (proj2 (strip_prefix_spec "data:" _ (mime ++ ";base64," ++ payload)) eq_refl).
    rewrite (span_mime_app mime (";base64," ++ payload) Hm)
      by (intros a t [= <- _]; reflexivity).
    rewrite Hmt. cbn [negb].
    rewrite (proj2 (strip_prefix_spec ";base64," _ payload) eq_refl).
    rewrite Hp1, Hp2. reflexivity.
Qed.

(** ** Creating an offer *)

Section Offers.
Variable toFile : string → string → gset string → bool * gset string.

(** X19: an offer whose fields are strings or absent and whose image is
    absent or a string that is not a base64 data URL is answered with
    status 400; the transcoder is not run, so the uploads directory is as
    it was, and no record is stored. *)
Theorem post_offers_bad_image (now iso : string) (b : OfferBody)
    (file : option (list (gmap string json))) (uploads : gset string) :
  match_data_url (default EmptyString (o_imageBase64 b)) = None →
  ∃ msg,
    post_offers toFile now iso b file uploads
      = (mkResponse 400 (BError msg), file, uploads).
Proof.
  intros Hbad. unfold post_offers.
  destruct (negb (truthy_ostr (o_name b)) || negb (truthy_ostr (o_description b))
            || negb (truthy_ostr (o_imageBase64 b))); [eexists; reflexivity|].
  destruct (Nat.ltb 50 _); [eexists; reflexivity|].
  destruct (Nat.ltb 1000 _); [eexists; reflexivity|].
  rewrite Hbad. eexists; reflexivity.
Qed.

(** X20: whenever the answer to an offer is not 201 (a field is missing
    or too long, the image is not a data URL, or the transcoder rejects
    it), the offers file is as it was. *)
Theorem post_offers_error_leaves_file (now iso : string) (b : OfferBody)
    (file : option (list (gmap string json))) (uploads : gset string) :
  status (post_offers toFile now iso b file uploads).1.1 ≠ 201 →
  (post_offers toFile now iso b file uploads).1.2 = file.
Proof.
  unfold post_offers.
  destruct (negb (truthy_ostr (o_name b)) || negb (truthy_ostr (o_description b))
            || negb (truthy_ostr (o_imageBase64 b))); [reflexivity|].
  destruct (Nat.ltb 50 _); [reflexivity|].
  destruct (Nat.ltb 1000 _); [reflexivity|].
  destruct (match_data_url _) as [[mime payload]|]; [|reflexivity].
  destruct (toFile payload _ uploads) as [[|] uploads']; [|reflexivity].
  cbn. intros H. destruct H. reflexivity.
Qed.

(** The offer that a successful creation stores. *)
Lemma post_offers_created (now iso name description image mime payload : string)
    (email : option string) (file : option (list (gmap string json)))
    (uploads uploads' : gset string) :
  truthy_str name = true → Nat.ltb 50 (String.length name) = false →
  truthy_str description = true → Nat.ltb 1000 (String.length description) = false →
  truthy_str image = true →
  match_data_url image = Some (mime, payload) →
  toFile payload (now ++ ".jpg") uploads = (true, uploads') →
  ∃ offer : gmap string json,
    post_offers toFile now iso
      (mkOfferBody (Some name) email (Some description) (Some image)) file uploads
      = (mkResponse 201 (BRecord offer), Some (readFile file ++ [offer])%list, uploads')
    ∧ offer !! "id" = Some (JStr now)
    ∧ offer !! "name" = Some (JStr (sanitize name))
    ∧ offer !! "email" = JStr <$> sanitize_opt email
    ∧ offer !! "description" = Some (JStr (sanitize description))
    ∧ offer !! "imageUrl" = Some (JStr ("/uploads/" ++ now ++ ".jpg")).
Proof.
  intros Hn Hnl Hd Hdl Hi Hm Ht.
  eexists. split.
  - unfold post_offers. cbn [o_name o_email o_description o_imageBase64
                             truthy_ostr default Datatypes.id].
    rewrite Hn, Hd, Hi. cbn [negb orb]. rewrite Hnl, Hdl, Hm, Ht.
    unfold writeOffers, readOffers, writeFile.
    rewrite fmap_app, <- list_fmap_compose.
    rewrite (list_fmap_ext (stringify ∘ parsed) (fun o => o) (readFile file))
      by (intros; apply stringify_parsed).
    rewrite list_fmap_id. reflexivity.
  - unfold stringify. rewrite !lookup_omap. repeat split.
Qed.
End Offers.

Lemma post_offers_bad_image_witness :
  ∃ msg,
    post_offers (fun _ _ u => (false, u)) "30" "2026-01-01T00:00:00.000Z"
      (mkOfferBody (Some "Tester") None (Some "Pram") (Some "image/png;base64,AAAA"))
      (Some [pram]) {[ "30.jpg" ]}
      = (mkResponse 400 (BError msg), Some [pram], {[ "30.jpg" ]}).
Proof.
  apply (post_offers_bad_image (fun _ _ u => (false, u)) "30"
           "2026-01-01T00:00:00.000Z"
           (mkOfferBody (Some "Tester") None (Some "Pram") (Some "image/png;base64,AAAA"))
           (Some [pram]) {[ "30.jpg" ]}).
  reflexivity.
Defined.

Lemma post_offers_error_leaves_file_witness :
  (post_offers (fun _ _ u => (false, u)) "31" "2026-01-01T00:00:00.000Z"
     (mkOfferBody (Some "Tester") None (Some "Pram")
        (Some "data:image/png;base64,AAAA"))
     (Some [pram]) {[ "30.jpg" ]}).1.2
  = Some [pram].
Proof.
  apply (post_offers_error_leaves_file (fun _ _ u => (false, u)) "31"
           "2026-01-01T00:00:00.000Z"
           (mkOfferBody (Some "Tester") None (Some "Pram")
              (Some "data:image/png;base64,AAAA"))
           (Some [pram]) {[ "30.jpg" ]}).
  vm_compute. discriminate.
Defined.



(** ** Creating a wishlist item *)

Lemma sanitized_or_empty_clean (c : ascii) (field : option string) :
  (∀ s, occurs c (sanitize s) = false) →
  occurs c (if truthy_ostr (sanitize_opt field)
            then default EmptyString (sanitize_opt field) else EmptyString) = false.
Proof.
  intros H. destruct field as [s|]; cbn; [|reflexivity].
  destruct (truthy_str (sanitize s)); [apply H | reflexivity].
Qed.

(** X22: for a body whose name, link, price and note are absent or
    strings of the ASCII range, a wishlist item is created (status 201)
    only with the admin PIN and a link whose protocol is [http:] or
    [https:]; the item created is not reserved, none of its name, link,
    price and note holds [<] or [>], and it is appended to the stored
    array. *)
Theorem post_wishlist_created (ADMIN_PIN : string)
    (url_protocol : string → option string) (now iso : string)
    (pin : option string) (b : WishBody) (file file' : option (list Wish.t))
    (w : Wish.t) :
  is_ascii_opt (w_name b) = true →
  is_ascii_opt (w_link b) = true →
  is_ascii_opt (w_price b) = true →
  is_ascii_opt (w_note b) = true →
  post_wishlist ADMIN_PIN url_protocol now iso pin b file
    = (mkResponse 201 (BRecord w), file') →
  pin = Some ADMIN_PIN
  ∧ (∃ link, w_link b = Some link
       ∧ (url_protocol link = Some "http:" ∨ url_protocol link = Some "https:"))
  ∧ Wish.reserved w = false ∧ Wish.reservedBy w = None
  ∧ (occurs "<" (Wish.name w) = false ∧ occurs ">" (Wish.name w) = false)
  ∧ (occurs "<" (Wish.link w) = false ∧ occurs ">" (Wish.link w) = false)
  ∧ (occurs "<" (Wish.price w) = false ∧ occurs ">" (Wish.price w) = false)
  ∧ (occurs "<" (Wish.note w) = false ∧ occurs ">" (Wish.note w) = false)
  ∧ file' = Some (readFile file ++ [w])%list.
Proof.
  intros _ _ _ _. unfold post_wishlist.
  destruct (authorized ADMIN_PIN pin) eqn:Hpin; cbn [negb]; [|discriminate].
  apply bool_decide_eq_true in Hpin.
  destruct (w_link b) as [link|] eqn:Hlink;
    [|rewrite orb_true_r; discriminate].
  destruct (negb (truthy_ostr (w_name b)) || negb (truthy_ostr (Some link)));
    [discriminate|].
  destruct (Nat.ltb 200 _); [discriminate|].
  destruct (truthy_ostr (w_price b) && _); [discriminate|].
  destruct (truthy_ostr (w_note b) && _); [discriminate|].
  cbn [default Datatypes.id].
  destruct (url_protocol link) as [protocol|] eqn:Hurl; [|discriminate].
  destruct (bool_decide (protocol ≠ "http:") && bool_decide (protocol ≠ "https:"))
    eqn:Hproto; [discriminate|].
  intros [= <- <-]. cbn [Wish.reserved Wish.reservedBy Wish.name Wish.link
                          Wish.price Wish.note].
  split; [assumption|]. split.
  { exists link. split; [reflexivity|].
    apply andb_false_iff in Hproto as [H|H]; apply bool_decide_eq_false in H;
      apply dec_stable in H; subst protocol; auto. }
  repeat split;
    try (apply sanitize_clean; auto);
    apply sanitized_or_empty_clean; intros s; apply sanitize_clean; auto.
Qed.

Lemma post_wishlist_created_witness :
  Some "2026" = Some "2026"
  ∧ (∃ link, w_link (mkWishBody (Some "Crib") (Some "https://example.com/crib")
                       (Some "120") None) = Some link
       ∧ ((fun _ : string => Some "https:") link = Some "http:"
          ∨ (fun _ : string => Some "https:") link = Some "https:"))
  ∧ Wish.reserved crib = false ∧ Wish.reservedBy crib = None
  ∧ (occurs "<" (Wish.name crib) = false ∧ occurs ">" (Wish.name crib) = false)
  ∧ (occurs "<" (Wish.link crib) = false ∧ occurs ">" (Wish.link crib) = false)
  ∧ (occurs "<" (Wish.price crib) = false ∧ occurs ">" (Wish.price crib) = false)
  ∧ (occurs "<" (Wish.note crib) = false ∧ occurs ">" (Wish.note crib) = false)
  ∧ Some [crib] = Some (readFile (Some []) ++ [crib])%list.
Proof.
  apply (post_wishlist_created "2026" (fun _ => Some "https:") "10"
           "2026-01-01T00:00:00.000Z" (Some "2026")
           (mkWishBody (Some "Crib") (Some "https://example.com/crib")
              (Some "120") None) (Some []) (Some [crib]) crib).
  - reflexivity.
  - reflexivity.
  - reflexivity.
  - reflexivity.
  - vm_compute. reflexivity.
Defined.

(** ** The legacy vote handler *)

(** X23: in the legacy handler a resolvable address votes once: after a
    vote of an address that the array does not hold yet has been accepted,
    the next vote from that address, of whatever type, is answered with
    status 403 and changes nothing. *)
Theorem legacy_second_vote_rejected (id ip : string) (type1 type2 : option string)
    (file : option (list Name.t)) (r : Name.t) (ips : list string) :
  truthy_str id = true →
  truthy_str ip = true →
  ip ≠ "unknown" →
  find (fun n => id_is n id) (readFile file) = Some r →
  Name.votedIPs r = LArray ips →
  ip ∉ ips →
  let voted := Legacy.post_vote (Some id) type1 None (Some ip) file in
  status voted.1 = 200
  ∧ Legacy.post_vote (Some id) type2 None (Some ip) voted.2
    = (mkResponse 403 (BError "You have already voted for this name."), voted.2).
Proof.
  intros Hid Hip Hknown Hfind Hl Hnew voted.
  assert (Hc : Legacy.clientIP None (Some ip) = ip)
    by (unfold Legacy.clientIP; cbn; rewrite Hip; reflexivity).
  set (vote := fun n : Name.t =>
         Name.set_votedIPs (LArray (ips ++ [ip])) (Legacy.count_vote type1 n)).
  assert (E : voted = (mkResponse 200 (BRecord (vote r)),
                       Some (update_first (fun n => id_is n id) vote (readFile file)))).
  { subst voted. unfold Legacy.post_vote. cbn [truthy_ostr default Datatypes.id].
    rewrite Hid. cbn [negb]. rewrite Hfind, Hl, Hc.
    rewrite (bool_decide_eq_false_2 (ip ∈ ips)) by assumption.
    rewrite andb_false_r. reflexivity. }
  rewrite E. cbn [fst snd status]. split; [reflexivity|].
  apply (legacy_duplicate_vote_rejected id ip type2 None _ (vote r) (ips ++ [ip]));
    try assumption.
  - rewrite readFile_Some. apply find_update_first; [assumption|].
    assert (Hr : id_is r id = true) by apply (find_some _ _ Hfind).
    unfold vote, Legacy.count_vote. destruct r; case_bool_decide; exact Hr.
  - unfold vote. reflexivity.
  - apply elem_of_app. right. apply list_elem_of_singleton. reflexivity.
Qed.

Lemma legacy_second_vote_rejected_witness :
  let voted :=
    Legacy.post_vote (Some "1") (Some "up") None (Some "203.0.113.1")
      (Some [newName "1" "Mia"]) in
  status voted.1 = 200
  ∧ Legacy.post_vote (Some "1") (Some "down") None (Some "203.0.113.1") voted.2
    = (mkResponse 403 (BError "You have already voted for this name."), voted.2).
Proof.
  apply (legacy_second_vote_rejected "1" "203.0.113.1" (Some "up") (Some "down")
           (Some [newName "1" "Mia"]) (newName "1" "Mia") []).
  - reflexivity.
  - reflexivity.
  - discriminate.
  - reflexivity.
  - reflexivity.
  - apply not_elem_of_nil.
Defined.

(** ** The length of a sanitized string *)

Lemma length_append (s t : string) :
  String.length (s ++ t) = (String.length s + String.length t)%nat.
Proof.
  induction s as [|a s IH]; [reflexivity|].
  change (String a s ++ t) with (String a (s ++ t)). cbn [String.length].
  rewrite IH. reflexivity.
Qed.

Lemma escape_length (s : string) :
  (String.length (replace_char ">" "&gt;" (replace_char "<" "&lt;" s))
     ≤ 4 * String.length s)%nat.
Proof.
  induction s as [|a s IH]; cbn [replace_char String.length]; [lia|].
  destruct (decide (a = "<"%char)) as [->|Hlt].
  - change ("&lt;" ++ replace_char "<" "&lt;" s)
      with (String "&" (String "l" (String "t" (String ";"
              (replace_char "<" "&lt;" s))))).
    cbn [replace_char].
    rewrite !decide_False by discriminate. cbn [String.length]. lia.
  - cbn [replace_char]. destruct (decide (a = ">"%char)).
    + rewrite length_append. cbn [String.length]. lia.
    + cbn [String.length]. lia.
Qed.

Lemma trim_start_length (s : string) :
  (String.length (trim_start s) ≤ String.length s)%nat.
Proof.
  induction s as [|a s IH]; cbn [trim_start]; [lia|].
  destruct (is_space a); cbn [String.length]; lia.
Qed.

Lemma trim_end_length (s : string) :
  (String.length (trim_end s) ≤ String.length s)%nat.
Proof.
  induction s as [|a s IH]; cbn [trim_end]; [lia|].
  destruct (trim_end s); [destruct (is_space a)|]; cbn [String.length] in *; lia.
Qed.

Lemma sanitize_length (s : string) :
  (String.length (sanitize s) ≤ 4 * String.length s)%nat.
Proof.
  unfold sanitize, trim.
  pose proof (escape_length s).
  pose proof (trim_start_length (replace_char ">" "&gt;" (replace_char "<" "&lt;" s))).
  pose proof (trim_end_length
                (trim_start (replace_char ">" "&gt;" (replace_char "<" "&lt;" s)))).
  lia.
Qed.

(** X24: the record that the suggestion of a name sent as a string of the
    ASCII range creates (status 201) has 0 votes, 0 dislikes and an empty
    ledger, so that it satisfies the tally invariant; its name holds
    neither [<] nor [>] and, the limit of 50 being tested before the
    escaping, has at most 200 characters; the record is appended to the
    stored array. *)
Theorem post_names_created (now : string) (b_name : option string)
    (file file' : option (list Name.t)) (r : Name.t) :
  is_ascii_opt b_name = true →
  post_names now b_name file = (mkResponse 201 (BRecord r), file') →
  Name.id r = now
  ∧ Name.votes r = Some 0%Z ∧ Name.dislikes r = Some 0%Z
  ∧ Name.votedIPs r = LArray []
  ∧ tally_ok r
  ∧ occurs "<" (Name.name r) = false ∧ occurs ">" (Name.name r) = false
  ∧ (String.length (Name.name r) ≤ 200)%nat
  ∧ file' = Some (readFile file ++ [r])%list.
Proof.
  intros _. unfold post_names.
  destruct (negb (truthy_ostr b_name)); [discriminate|].
  destruct (Nat.ltb 50 _) eqn:Hlen; [discriminate|].
  intros [= <- <-]. apply Nat.ltb_ge in Hlen.
  pose proof (sanitize_clean "<" (default EmptyString b_name) (or_introl eq_refl)) as H1.
  pose proof (sanitize_clean ">" (default EmptyString b_name) (or_intror eq_refl)) as H2.
  pose proof (sanitize_length (default EmptyString b_name)) as H3.
  do 4 (split; [reflexivity|]).
  split; [apply tally_ok_new|].
  split; [exact H1|]. split; [exact H2|].
  split; [cbn [newName Name.name]; lia | reflexivity].
Qed.

Lemma post_names_created_witness :
  Name.id (newName "2" "&lt;b&gt;Noah") = "2"
  ∧ Name.votes (newName "2" "&lt;b&gt;Noah") = Some 0%Z
  ∧ Name.dislikes (newName "2" "&lt;b&gt;Noah") = Some 0%Z
  ∧ Name.votedIPs (newName "2" "&lt;b&gt;Noah") = LArray []
  ∧ tally_ok (newName "2" "&lt;b&gt;Noah")
  ∧ occurs "<" (Name.name (newName "2" "&lt;b&gt;Noah")) = false
  ∧ occurs ">" (Name.name (newName "2" "&lt;b&gt;Noah")) = false
  ∧ (String.length (Name.name (newName "2" "&lt;b&gt;Noah")) ≤ 200)%nat
  ∧ Some [mia_up; newName "2" "&lt;b&gt;Noah"]
    = Some (readFile (Some [mia_up]) ++ [newName "2" "&lt;b&gt;Noah"])%list.
Proof.
  apply (post_names_created "2" (Some " <b>Noah ") (Some [mia_up])
           (Some [mia_up; newName "2" "&lt;b&gt;Noah"]) (newName "2" "&lt;b&gt;Noah")).
  - reflexivity.
  - vm_compute. reflexivity.
Defined.
